(** * Academic paper scraper: a shallow embedding of [academic_scraper/app.py]

    The development follows the source file top to bottom:
    - [Py]: the few operations on Python [str] values the program uses;
    - [Soup]: the BeautifulSoup tree the listing page is parsed into and the
      [find_all] / [find] / [get_text] queries made on it;
    - [Worker]: the Celery task [scrape_and_summarize], written in a small
      state-and-exception monad over the outside world;
    - [Web]: the two Flask routes [submit_topic] and [get_task_status];
    - [Luhn]: the extractive summarizer as the specification describes it.

    Theorems come after all definitions. *)

From Stdlib Require Import ZArith QArith String Ascii List.
From stdpp Require Import gmap strings list pretty sorting.
Import ListNotations.

Set Warnings "-register-all".
Local Open Scope string_scope.
Local Open Scope list_scope.

(* ===================================================================== *)
(** ** Python strings *)
(* ===================================================================== *)

Module Py.

(** [str.isspace] on one ASCII character: tab, line feed, vertical tab,
    form feed, carriage return, the four separators 28..31 and space. *)
Definition isspace (c : ascii) : bool :=
  let n := nat_of_ascii c in
  (((9 <=? n) && (n <=? 13)) || ((28 <=? n) && (n <=? 32)))%nat.

(** [s.lstrip()]. *)
Fixpoint lstrip (s : string) : string :=
  match s with
  | String c rest => if isspace c then lstrip rest else s
  | EmptyString => EmptyString
  end.

(** [s.rstrip()]. *)
Definition rstrip (s : string) : string :=
  String.rev (lstrip (String.rev s)).

(** [s.strip()]. *)
Definition strip (s : string) : string := rstrip (lstrip s).

(** [s.replace(a, b)] for one-character [a] and [b]. *)
Fixpoint replace (a b : ascii) (s : string) : string :=
  match s with
  | String c rest => String (if Ascii.eqb c a then b else c) (replace a b rest)
  | EmptyString => EmptyString
  end.

(** [sep.join(parts)]. *)
Fixpoint join (sep : string) (parts : list string) : string :=
  match parts with
  | [] => ""
  | [p] => p
  | p :: rest => p +:+ sep +:+ join sep rest
  end.

(** Truthiness of a [str]: [bool(s)]. *)
Definition truthy (s : string) : bool :=
  match s with EmptyString => false | String _ _ => true end.

End Py.

(* ===================================================================== *)
(** ** The parsed listing page *)
(* ===================================================================== *)

Module Soup.

(** A BeautifulSoup node: a text node or a tag.  bs4 keeps the [class]
    attribute as a list of class names and every other attribute as a
    [str] in the [attrs] dict. *)
Inductive Node : Type :=
| NavigableString (s : string)
| Tag (name : string) (class : list string) (attrs : gmap string string)
      (contents : list Node).

(** [tag.descendants]: every node below [n], in document order. *)
Fixpoint descendants (n : Node) : list Node :=
  match n with
  | NavigableString _ => []
  | Tag _ _ _ cs => List.flat_map (fun c => c :: descendants c) cs
  end.

(** Keyword filters of [find] / [find_all] as the program uses them:
    [class_="..."], [href=True], [title="Abstract"]. *)
Inductive Filter : Type :=
| class_ (c : string)
| has_attr (k : string)
| attr_is (k v : string).

(** bs4 matches [class_] against every single class and against the
    classes joined by one space. *)
Definition class_matches (c : string) (classes : list string) : bool :=
  existsb (String.eqb c) classes || String.eqb c (Py.join " " classes).

Definition filter_matches (classes : list string) (attrs : gmap string string)
    (f : Filter) : bool :=
  match f with
  | class_ c => class_matches c classes
  | has_attr k => bool_decide (is_Some (attrs !! k))
  | attr_is k v => bool_decide (attrs !! k = Some v)
  end.

Definition matches (name : string) (fs : list Filter) (n : Node) : bool :=
  match n with
  | NavigableString _ => false
  | Tag nm classes attrs _ =>
      String.eqb nm name && forallb (filter_matches classes attrs) fs
  end.

(** [tag.find_all(name, **filters)]. *)
Definition find_all (name : string) (fs : list Filter) (n : Node) : list Node :=
  List.filter (matches name fs) (descendants n).

(** [tag.find(name, **filters)]: the first match, or [None]. *)
Definition find (name : string) (fs : list Filter) (n : Node) : option Node :=
  head (find_all name fs n).

(** The text of one node, for [get_text]. *)
Definition node_string (n : Node) : option string :=
  match n with NavigableString s => Some s | Tag _ _ _ _ => None end.

(** [tag.get_text(strip=True)]: every text node below the tag, stripped,
    the empty ones dropped, concatenated. *)
Definition get_text_strip (n : Node) : string :=
  Py.join ""
    (List.filter Py.truthy
       (List.map Py.strip (omap node_string (descendants n)))).

(** [tag[k]] for an attribute known to be present. *)
Definition get_attr (k : string) (n : Node) : string :=
  match n with
  | Tag _ _ attrs _ => default "" (attrs !! k)
  | NavigableString _ => ""
  end.

End Soup.

(* ===================================================================== *)
(** ** Paper references and results *)
(* ===================================================================== *)

(** The dict [{"title": ..., "link": ...}] built from one listing entry. *)
Record PaperReference : Type := mkRef { ref_title : string; ref_link : string }.

(** The dict [{"title": ..., "link": ..., "summary": ...}] appended to
    [summaries]. *)
Record PaperResult : Type :=
  mkResult { title : string; link : string; summary : string }.

Global Instance PaperReference_eq_dec : EqDecision PaperReference.
Proof. solve_decision. Defined.
Global Instance PaperResult_eq_dec : EqDecision PaperResult.
Proof. solve_decision. Defined.

Module Listing.
Import Soup.

Definition title_element (entry : Node) : option Node :=
  find "p" [class_ "title is-5 mathjax"] entry.

Definition link_element (entry : Node) : option Node :=
  find "a" [has_attr "href"; attr_is "title" "Abstract"] entry.

(** One turn of the loop over the listing entries: the reference appended
    to [papers], if any.  A bs4 tag is always truthy, so the test
    [title_element and link_element] is a test for [None]. *)
Definition reference_of_entry (entry : Node) : option PaperReference :=
  match title_element entry, link_element entry with
  | Some t, Some l =>
      Some {| ref_title := get_text_strip t; ref_link := get_attr "href" l |}
  | _, _ => None
  end.

(** [soup.find_all("li", class_="arxiv-result")]. *)
Definition entries (soup : Node) : list Node :=
  find_all "li" [class_ "arxiv-result"] soup.

(** The loop [for entry in ...: if ...: papers.append(...)], with
    [papers] as an accumulator. *)
Fixpoint collect (es : list Node) (papers : list PaperReference)
    : list PaperReference :=
  match es with
  | [] => papers
  | entry :: rest =>
      match reference_of_entry entry with
      | Some p => collect rest (papers ++ [p])
      | None => collect rest papers
      end
  end.

Definition list_papers (soup : Node) : list PaperReference :=
  collect (entries soup) [].

End Listing.

(** Sample listing page: four results, the second without an abstract
    link, the third without a title paragraph, the fourth with its link
    inside a [div]. *)
Module Sample.
Import Soup.

Definition title_p (t : string) : Node :=
  Tag "p" ["title"; "is-5"; "mathjax"] ∅ [NavigableString t].
Definition abs_a (href : string) : Node :=
  Tag "a" [] (<["href" := href]> (<["title" := "Abstract"]> ∅))
      [NavigableString "arXiv"].
Definition li (cs : list Node) : Node := Tag "li" ["arxiv-result"] ∅ cs.

Definition page : Node :=
  Tag "html" [] ∅
    [Tag "ol" [] ∅
       [li [abs_a "https://arxiv.org/abs/1"; title_p "  Graphs  "];
        li [title_p "No link"];
        li [abs_a "https://arxiv.org/abs/3"];
        li [Tag "div" [] ∅ [abs_a "https://arxiv.org/abs/4"];
            title_p "Trees"]]].
End Sample.

(* ===================================================================== *)
(** ** JSON values, exceptions, HTTP responses *)
(* ===================================================================== *)

(** The JSON values the program builds: strings, lists and dicts (in key
    order), and [None]. *)
Inductive Json : Type :=
| JNull
| JString (s : string)
| JArray (items : list Json)
| JObject (fields : list (string * Json)).

(** [d.get(k)] on a JSON dict. *)
Definition json_get (k : string) (j : Json) : option Json :=
  match j with
  | JObject fields => snd <$> List.find (fun kv => String.eqb (fst kv) k) fields
  | _ => None
  end.

(** A [str] made by [json.dumps], kept as the value it encodes;
    [json.loads] gives that value back. *)
Inductive JsonStr : Type := dumps (j : Json).
Definition loads (s : JsonStr) : Json := match s with dumps j => j end.

(** A raised exception (an instance of [Exception]): whether it is a
    [requests.exceptions.RequestException], and its text [str(e)]. *)
Record exn : Type :=
  mkExn { is_request_exception : bool; exn_str : string }.

(** What [requests.get] returns. *)
Record Response : Type :=
  mkResponse { status_code : Z; reason : string; url : string; text : string }.

(** [response.raise_for_status()] as the requests library defines it:
    an [HTTPError] (a [RequestException]) for a 4xx or 5xx status. *)
Definition raise_for_status (r : Response) : exn + unit :=
  if bool_decide (400 <= status_code r < 500)%Z then
    inl {| is_request_exception := true;
           exn_str := pretty (status_code r) +:+ " Client Error: " +:+ reason r
                      +:+ " for url: " +:+ url r |}
  else if bool_decide (500 <= status_code r < 600)%Z then
    inl {| is_request_exception := true;
           exn_str := pretty (status_code r) +:+ " Server Error: " +:+ reason r
                      +:+ " for url: " +:+ url r |}
  else inr tt.

(** A sumy sentence: its text ([str(s)]) and its normalized words. *)
Record Sentence : Type :=
  mkSentence { sentence_text : string; sentence_words : list string }.

Abbreviation Document := (list Sentence).

(* ===================================================================== *)
(** ** The outside world and the worker's monad *)
(* ===================================================================== *)

(** A library call made while one reference is processed. *)
Inductive Call : Type :=
| CTokenizer (language : string)
| CFromUrl (link : string)
| CStemmer (language : string)
| CStopWords (language : string)
| CDocument
| CSummarizer (sentences_count : nat).

(** What the task does, in the order it does it.  [item] is the position
    in [papers] of the reference being processed. *)
Inductive Event : Type :=
| EvUpdateState (state : string) (meta : Json)
| EvGet (search_url : string)
| EvCall (item : nat) (c : Call)
| EvAppend (item : nat) (r : PaperResult).

Section World.

(** The state of everything outside the program: network, remote sites,
    installed NLTK data. *)
Context {W : Type}.

(** The library functions the task calls.  Each may raise and may change
    the world, but for [BeautifulSoup]: the parse is taken to give the
    tree of any page text. *)
Record Env : Type := mkEnv {
  requests_get : string -> W -> (exn + Response) * W;
  BeautifulSoup : string -> Soup.Node;
  Tokenizer : string -> W -> (exn + unit) * W;
  from_url : string -> W -> (exn + string) * W;
  Stemmer : string -> W -> (exn + unit) * W;
  get_stop_words : string -> W -> (exn + unit) * W;
  document : string -> W -> (exn + Document) * W;
  summarizer : Document -> nat -> W -> (exn + list Sentence) * W
}.

Record St : Type := mkSt { world : W; log : list Event }.

Definition M (A : Type) : Type := St -> (exn + A) * St.

Definition ret {A} (a : A) : M A := fun σ => (inr a, σ).

Definition bind {A B} (m : M A) (k : A -> M B) : M B :=
  fun σ => match m σ with
           | (inl e, σ') => (inl e, σ')
           | (inr a, σ') => k a σ'
           end.

(** [try: body except <class> as e: handler(e)]. *)
Definition try_except {A} (body : M A) (caught : exn -> bool)
    (handler : exn -> M A) : M A :=
  fun σ => match body σ with
           | (inl e, σ') => if caught e then handler e σ' else (inl e, σ')
           | (inr a, σ') => (inr a, σ')
           end.

(** A pure step that may raise. *)
Definition lift {A} (r : exn + A) : M A := fun σ => (r, σ).

(** Record an event. *)
Definition emit (ev : Event) : M unit :=
  fun σ => (inr tt, {| world := world σ; log := log σ ++ [ev] |}).

(** Call into the world, recording the call. *)
Definition call {A} (ev : Event) (op : W -> (exn + A) * W) : M A :=
  fun σ => let (r, w) := op (world σ) in
           (r, {| world := w; log := log σ ++ [ev] |}).

End World.

Arguments Env : clear implicits.
Arguments St : clear implicits.
Arguments M : clear implicits.

Notation "x <- m ;; k" := (bind m (fun x => k))
  (at level 20, m at level 99, k at level 200, only parsing).
Notation "m ;;; k" := (bind m (fun _ => k))
  (at level 100, k at level 200, right associativity, only parsing).

(* ===================================================================== *)
(** ** The Celery task [scrape_and_summarize] *)
(* ===================================================================== *)

Module Worker.
Section Task.

Context {W : Type} (env : Env W).

(** [self.update_state(state=..., meta=...)]; the write to the result
    backend is taken to succeed. *)
Definition update_state (state : string) (meta : Json) : M W unit :=
  emit (EvUpdateState state meta).

Definition message (m : string) : Json := JObject [("message", JString m)].

Definition search_url (topic : string) : string :=
  "https://arxiv.org/search/?query=" +:+ Py.replace " " "+" topic
  +:+ "&searchtype=all".

Definition paper_json (r : PaperResult) : Json :=
  JObject [("title", JString (title r)); ("link", JString (link r));
           ("summary", JString (summary r))].

(** [{"status": "complete", "papers": ...}]. *)
Definition complete (papers : list PaperResult) : Json :=
  JObject [("status", JString "complete");
           ("papers", JArray (List.map paper_json papers))].

(** [{"status": "failure", "error": ...}]. *)
Definition failure (error : string) : Json :=
  JObject [("status", JString "failure"); ("error", JString error)].

(** The body of the inner [try], up to [summary_text]. *)
Definition summarize_paper (i : nat) (paper : PaperReference) : M W string :=
  tokenizer <- call (EvCall i (CTokenizer "english")) (Tokenizer env "english") ;;
  parser <- call (EvCall i (CFromUrl (ref_link paper)))
                 (from_url env (ref_link paper)) ;;
  stemmer <- call (EvCall i (CStemmer "english")) (Stemmer env "english") ;;
  stop_words <- call (EvCall i (CStopWords "english"))
                     (get_stop_words env "english") ;;
  doc <- call (EvCall i CDocument) (document env parser) ;;
  summary_sentences <- call (EvCall i (CSummarizer 3)) (summarizer env doc 3) ;;
  ret (Py.join " " (List.map sentence_text summary_sentences)).

(** [summaries.append(r)]. *)
Definition append (i : nat) (summaries : list PaperResult) (r : PaperResult)
    : M W (list PaperResult) :=
  emit (EvAppend i r) ;;; ret (summaries ++ [r]).

(** The entry appended when the inner [try] raises [e]. *)
Definition failed_result (paper : PaperReference) (e : exn) : PaperResult :=
  {| title := ref_title paper; link := ref_link paper;
     summary := "Could not generate summary: " +:+ exn_str e |}.

(** The entry appended when the inner [try] succeeds. *)
Definition summarized_result (paper : PaperReference) (summary_text : string)
    : PaperResult :=
  {| title := ref_title paper; link := ref_link paper;
     summary := summary_text |}.

(** One turn of [for paper in papers]: [try ... except Exception as e]. *)
Definition process_paper (i : nat) (paper : PaperReference)
    (summaries : list PaperResult) : M W (list PaperResult) :=
  try_except
    (summary_text <- summarize_paper i paper ;;
     append i summaries (summarized_result paper summary_text))
    (fun _ => true)
    (fun e => append i summaries (failed_result paper e)).

(** [for paper in papers: ...], from position [i] on. *)
Fixpoint summarize_all (i : nat) (papers : list PaperReference)
    (summaries : list PaperResult) : M W (list PaperResult) :=
  match papers with
  | [] => ret summaries
  | paper :: rest =>
      summaries' <- process_paper i paper summaries ;;
      summarize_all (S i) rest summaries'
  end.

Definition scrape_and_summarize (topic : string) : M W JsonStr :=
  update_state "PROGRESS" (message "Starting to scrape...") ;;;
  try_except
    (response <- call (EvGet (search_url topic))
                      (requests_get env (search_url topic)) ;;
     lift (raise_for_status response) ;;;
     let soup := BeautifulSoup env (text response) in
     let papers := Listing.list_papers soup in
     match papers with
     | [] => ret (dumps (complete []))
     | _ :: _ =>
         update_state "PROGRESS"
           (message ("Found " +:+ pretty (length papers)
                     +:+ " papers. Starting summarization...")) ;;;
         summaries <- summarize_all 0 papers [] ;;
         update_state "PROGRESS"
           (message "Summarization complete. Wrapping up...") ;;;
         ret (dumps (complete summaries))
     end)
    is_request_exception
    (fun e =>
       update_state "FAILURE" (JObject [("error", JString (exn_str e))]) ;;;
       ret (dumps (failure (exn_str e)))).

End Task.
End Worker.

(* ===================================================================== *)
(** ** The Flask routes *)
(* ===================================================================== *)

Module Web.

(** What a route returns: [jsonify(body), code]. *)
Record HttpResponse : Type := mkHttp { body : Json; code : Z }.

(** The value Celery keeps for a task: nothing, the [str] the task
    returned, or the exception that escaped the task. *)
Inductive TaskResult : Type :=
| ResNone
| ResStr (s : JsonStr)
| ResExc (e : exn).

Record TaskMeta : Type := mkMeta { state : string; result : TaskResult }.

(** [AsyncResult(task_id, app=celery)] over the result backend.  Celery
    has no record of the ids it issued: an id with no entry in the
    backend reads as [PENDING] with no result. *)
Definition AsyncResult (task_id : string) (backend : gmap string TaskMeta)
    : TaskMeta :=
  default {| state := "PENDING"; result := ResNone |} (backend !! task_id).

(** [task.ready()]: the state is one of Celery's [READY_STATES]. *)
Definition ready (task : TaskMeta) : bool :=
  bool_decide (state task ∈ ["SUCCESS"; "FAILURE"; "REVOKED"]).

(** [GET /status/<task_id>].  [jsonify] cannot encode an exception
    object, in which case Flask answers 500. *)
Definition get_task_status (task_id : string) (backend : gmap string TaskMeta)
    : HttpResponse :=
  let task := AsyncResult task_id backend in
  if ready task then
    match result task with
    | ResStr s =>
        {| body := JObject [("status", JString "ready"); ("result", loads s)];
           code := 200 |}
    | ResNone =>
        {| body := JObject [("status", JString "ready"); ("result", JNull)];
           code := 200 |}
    | ResExc _ => {| body := JNull; code := 500 |}
    end
  else {| body := JObject [("status", JString "pending")]; code := 202 |}.

(** The broker side of [scrape_and_summarize.delay]: the ids still to be
    issued and the messages queued so far, as (task id, topic). *)
Record Broker : Type :=
  mkBroker { uuid : nat -> string; issued : nat;
             queue : list (string * string) }.

(** [scrape_and_summarize.delay(topic)]: a fresh id, one queued message;
    the task itself runs later, in a worker process. *)
Definition delay (topic : string) (b : Broker) : string * Broker :=
  let task_id := uuid b (issued b) in
  (task_id,
   {| uuid := uuid b; issued := S (issued b);
      queue := queue b ++ [(task_id, topic)] |}).

(** [POST /submit] with the given form fields. *)
Definition submit_topic (form : gmap string string) (b : Broker)
    : HttpResponse * Broker :=
  match form !! "topic" with
  | Some topic =>
      if Py.truthy topic then
        let (task_id, b') := delay topic b in
        ({| body := JObject [("task_id", JString task_id)]; code := 202 |}, b')
      else
        ({| body := JObject [("error", JString "Topic is required")];
            code := 400 |}, b)
  | None =>
      ({| body := JObject [("error", JString "Topic is required")];
          code := 400 |}, b)
  end.

(** A Flask answer is an error answer when its code is 4xx or 5xx. *)
Definition is_error (r : HttpResponse) : bool :=
  bool_decide (400 <= code r)%Z.

(** Whether the task set the state [FAILURE] by its own
    [update_state]. *)
Definition sets_failure (events : list Event) : bool :=
  existsb (fun ev =>
             match ev with
             | EvUpdateState state _ => String.eqb state "FAILURE"
             | _ => false
             end) events.

(** What Celery raises when it reads an entry in state [FAILURE] whose
    result is the [meta] of an [update_state] and so does not describe an
    exception. *)
Definition unreadable : exn :=
  {| is_request_exception := false;
     exn_str := "Exception information must include the exception type" |}.

Section Run.
Context {W : Type} (env : Env W).

(** A worker process runs one queued message to its end.  Celery then
    stores [SUCCESS] with the returned value, or [FAILURE] with the
    exception that escaped.  It stores neither when the task has set
    [FAILURE] itself: the entry of that update cannot be read as an
    exception, the outcome of the task is not written over it, and what
    a reader of the entry gets from then on is the exception
    [unreadable]. *)
Definition run_task (task_id topic : string) (w : W)
    (backend : gmap string TaskMeta) : gmap string TaskMeta * W :=
  let '(r, σ) := Worker.scrape_and_summarize env topic
                   {| world := w; log := [] |} in
  (<[task_id := if sets_failure (log σ)
                then {| state := "FAILURE"; result := ResExc unreadable |}
                else match r with
                     | inr s => {| state := "SUCCESS"; result := ResStr s |}
                     | inl e => {| state := "FAILURE"; result := ResExc e |}
                     end]> backend,
   world σ).
End Run.

End Web.

(* ===================================================================== *)
(** ** The extractive summarizer *)
(* ===================================================================== *)

Module Luhn.
Section Summarizer.

(** The tunable constants of the algorithm: the two frequency bounds of
    a significant word and the cluster distance. *)
Variables (low high max_gap : nat).

(** How often [w] occurs in the whole document. *)
Definition frequency (doc : Document) (w : string) : nat :=
  length (List.filter (String.eqb w) (concat (List.map sentence_words doc))).

(** Step 1: a word is significant when its frequency lies strictly
    between the two bounds. *)
Definition significant (doc : Document) (w : string) : bool :=
  ((low <? frequency doc w) && (frequency doc w <? high))%nat.

(** Step 2: the maximal windows of one sentence, each as (number of
    significant words, length).  [cur] is the window being built:
    (significant words, length up to the last one, other words since). *)
Fixpoint windows (marks : list bool) (cur : option (nat * nat * nat))
    : list (nat * nat) :=
  match marks with
  | [] =>
      match cur with Some (c, len, _) => [(c, len)] | None => [] end
  | true :: rest =>
      match cur with
      | Some (c, len, gap) => windows rest (Some (S c, len + gap + 1, 0))%nat
      | None => windows rest (Some (1, 1, 0))%nat
      end
  | false :: rest =>
      match cur with
      | Some (c, len, gap) =>
          if (max_gap <=? S gap)%nat then (c, len) :: windows rest None
          else windows rest (Some (c, len, S gap))
      | None => windows rest None
      end
  end.

(** Step 3: (significant words)^2 / (window length). *)
Definition window_score (win : nat * nat) : Q :=
  Qmake (Z.of_nat (fst win * fst win)) (Pos.of_nat (snd win)).

Definition Qmax (a b : Q) : Q := if Qle_bool a b then b else a.

(** The score of a sentence: its best window, and 0 when it has fewer
    than two significant words. *)
Definition rate (doc : Document) (s : Sentence) : Q :=
  let marks := List.map (significant doc) (sentence_words s) in
  if (length (List.filter id marks) <? 2)%nat then 0%Q
  else foldr Qmax 0%Q (List.map window_score (windows marks None)).

(** Step 4.  [rank_insert x l] puts [x], which stands earlier in the
    document than everything in [l], into the ranking [l] (best first):
    before the first entry that does not beat it. *)
Fixpoint rank_insert (x : nat * Q) (l : list (nat * Q)) : list (nat * Q) :=
  match l with
  | [] => [x]
  | y :: rest =>
      if Qle_bool (snd y) (snd x) then x :: y :: rest
      else y :: rank_insert x rest
  end.

(** Positions and scores of all sentences, best first, ties by earliest
    position. *)
Definition ranking (doc : Document) : list (nat * Q) :=
  foldr rank_insert []
    (zip (seq 0 (length doc)) (List.map (rate doc) doc)).

(** The sentences at the chosen positions, in document order. *)
Definition pick (chosen : list nat) (doc : Document) : Document :=
  List.map snd
    (List.filter (fun p => bool_decide (fst p ∈ chosen))
       (zip (seq 0 (length doc)) doc)).

(** The [sentence_count] best sentences, in document order. *)
Definition select_top (doc : Document) (sentence_count : nat) : Document :=
  pick (List.map fst (take sentence_count (ranking doc))) doc.

(** Modelled from the spec: the summarizer of section 4.2, which the
    program takes from the sumy library ([LuhnSummarizer]); its code is
    not in the repository.  A document with no more sentences than asked
    for is returned as it is, without scoring. *)
Definition summarize (doc : Document) (sentence_count : nat) : Document :=
  if (length doc <=? sentence_count)%nat then doc
  else select_top doc sentence_count.

End Summarizer.
End Luhn.

Module LuhnSample.
Definition s (t : string) : Sentence :=
  {| sentence_text := t; sentence_words := String.words t |}.
Definition doc : Document :=
  [ s "graph theory studies graph colouring";
    s "weather today";
    s "colouring a planar graph needs four colours";
    s "planar graph colouring is hard";
    s "unrelated remark" ].
End LuhnSample.

(* ===================================================================== *)
(** ** What a run of the loop over [papers] amounts to *)
(* ===================================================================== *)

Module Run.
Section Run.

Context {W : Type} (env : Env W).

(** The entry appended for [paper], given how the inner [try] ended:
    with an exception or with the summary text. *)
Definition item_result (paper : PaperReference) (o : exn + string)
    : PaperResult :=
  match o with
  | inl e => Worker.failed_result paper e
  | inr summary_text => Worker.summarized_result paper summary_text
  end.

(** The state once [r] has been appended for entry [i]. *)
Definition appended (i : nat) (r : PaperResult) (σ : St W) : St W :=
  {| world := world σ; log := log σ ++ [EvAppend i r] |}.

(** How the inner [try] ends for each entry of [papers], the loop
    starting at position [i] in state [σ]. *)
Fixpoint outcomes (i : nat) (papers : list PaperReference) (σ : St W)
    : list (exn + string) :=
  match papers with
  | [] => []
  | paper :: rest =>
      let (o, σ1) := Worker.summarize_paper env i paper σ in
      o :: outcomes (S i) rest (appended i (item_result paper o) σ1)
  end.

(** The state in which the loop ends. *)
Fixpoint final (i : nat) (papers : list PaperReference) (σ : St W) : St W :=
  match papers with
  | [] => σ
  | paper :: rest =>
      let (o, σ1) := Worker.summarize_paper env i paper σ in
      final (S i) rest (appended i (item_result paper o) σ1)
  end.

(** The state in which the loop starts: the listing has been fetched,
    leaving the world as [w], and [n] references were found. *)
Definition fan_out_start (topic : string) (σ : St W) (w : W) (n : nat)
    : St W :=
  {| world := w;
     log := log σ
            ++ [EvUpdateState "PROGRESS" (Worker.message "Starting to scrape...");
                EvGet (Worker.search_url topic);
                EvUpdateState "PROGRESS"
                  (Worker.message ("Found " +:+ pretty n
                                   +:+ " papers. Starting summarization..."))] |}.

(** How the listing fetch failed, if it did: the [RequestException]
    raised by [requests.get] or by [raise_for_status]. *)
Definition listing_failure (r : exn + Response) : option exn :=
  match r with
  | inl e => if is_request_exception e then Some e else None
  | inr response =>
      match raise_for_status response with
      | inl e => Some e
      | inr _ => None
      end
  end.

End Run.
End Run.






(** The task returned a failure payload with a non-empty error. *)
Definition failed_with_nonempty_error (r : exn + JsonStr) : Prop :=
  exists error, r = inr (dumps (Worker.failure error)) /\ error <> "".

(* ===================================================================== *)
(** ** Sample worlds *)
(* ===================================================================== *)

Module Demo.

Definition timeout : exn :=
  {| is_request_exception := true; exn_str := "Read timed out." |}.

(** A world that counts the requests served.  The listing request ends
    as [listing]; the page is parsed into [soup]; the paper at
    [.../abs/4] times out; every other page reads as the sample
    document. *)
Definition env (listing : exn + Response) (soup : Soup.Node) : Env nat :=
  {| requests_get := fun _ w => (listing, S w);
     BeautifulSoup := fun _ => soup;
     Tokenizer := fun _ w => (inr tt, w);
     from_url := fun link w =>
       if String.eqb link "https://arxiv.org/abs/4"
       then (inl timeout, S w) else (inr "<html>", S w);
     Stemmer := fun _ w => (inr tt, w);
     get_stop_words := fun _ w => (inr tt, w);
     document := fun _ w => (inr LuhnSample.doc, w);
     summarizer := fun doc n w => (inr (Luhn.summarize 1 10 4 doc n), w) |}.

Definition ok (status : Z) (reason : string) : Response :=
  {| status_code := status; reason := reason;
     url := "https://arxiv.org/search/?query=graph+theory&searchtype=all";
     text := "<html>" |}.

Definition start : St nat := {| world := 0%nat; log := [] |}.

Definition found : Env nat := env (inr (ok 200 "OK")) Sample.page.
Definition nothing : Env nat :=
  env (inr (ok 200 "OK")) (Soup.Tag "html" [] ∅ []).
Definition unreachable : Env nat :=
  env (inl {| is_request_exception := true; exn_str := "" |}) Sample.page.
Definition missing : Env nat := env (inr (ok 404 "Not Found")) Sample.page.

Definition uuids (n : nat) : string := "task-" +:+ pretty n.
Definition broker : Web.Broker :=
  {| Web.uuid := uuids; Web.issued := 0; Web.queue := [] |}.

End Demo.

(* ===================================================================== *)
(** ** Reading the trace of a run *)
(* ===================================================================== *)

Module Trace.

(** The library calls of the inner [try] for the reference at position
    [i], in the order the body makes them. *)
Definition script (i : nat) (paper : PaperReference) : list Event :=
  [ EvCall i (CTokenizer "english");
    EvCall i (CFromUrl (ref_link paper));
    EvCall i (CStemmer "english");
    EvCall i (CStopWords "english");
    EvCall i CDocument;
    EvCall i (CSummarizer 3) ].

(** The entry an event appends to [summaries], with its position. *)
Definition append_of (ev : Event) : option (nat * PaperResult) :=
  match ev with EvAppend i r => Some (i, r) | _ => None end.

(** The URL an event requests with [requests.get]. *)
Definition get_of (ev : Event) : option string :=
  match ev with EvGet search_url => Some search_url | _ => None end.

(** The state an event sets with [update_state]. *)
Definition state_of (ev : Event) : option string :=
  match ev with EvUpdateState state _ => Some state | _ => None end.

(** An event of the loop over [papers] started at position [i]: a call of
    the script of one of the references, or the append of a result at one
    of their positions. *)
Definition of_loop (i : nat) (papers : list PaperReference) (ev : Event)
    : Prop :=
  match ev with
  | EvCall k c =>
      exists p, (i <= k)%nat /\ papers !! (k - i)%nat = Some p
                /\ EvCall k c ∈ script k p
  | EvAppend k r => (i <= k < i + length papers)%nat
  | _ => False
  end.

End Trace.

(** A world whose listing page has two result entries, one without a
    link and one without a title: it gives no reference. *)
Module Skipped.
Definition page : Soup.Node :=
  Soup.Tag "html" [] ∅
    [Sample.li [Sample.title_p "No link"];
     Sample.li [Sample.abs_a "https://arxiv.org/abs/3"]].
Definition env : Env nat := Demo.env (inr (Demo.ok 200 "OK")) page.
End Skipped.

(** A world in which the listing request dies of something that is not a
    [RequestException]. *)
Module Crash.
Definition error : exn :=
  {| is_request_exception := false; exn_str := "maximum recursion depth exceeded" |}.
Definition env : Env nat := Demo.env (inl error) Sample.page.
End Crash.

(* ===================================================================== *)
(** ** The listing parse *)
(* ===================================================================== *)

Example list_papers_sample :
  Listing.list_papers Sample.page
  = [ {| ref_title := "Graphs"; ref_link := "https://arxiv.org/abs/1" |};
      {| ref_title := "Trees"; ref_link := "https://arxiv.org/abs/4" |} ].
Proof. vm_compute. reflexivity. Qed.

(** The accumulator of [collect] only grows at its end. *)
Lemma collect_acc (es : list Soup.Node) (papers : list PaperReference) :
  Listing.collect es papers = papers ++ Listing.collect es [].
Proof.
  revert papers. induction es as [|entry rest IH]; intros papers; simpl.
  - by rewrite app_nil_r.
  - destruct (Listing.reference_of_entry entry) as [p|]; [|apply IH].
    rewrite (IH (papers ++ [p])), (IH [p]). by rewrite <- app_assoc.
Qed.

Lemma collect_app (es1 es2 : list Soup.Node) :
  Listing.collect (es1 ++ es2) []
  = Listing.collect es1 [] ++ Listing.collect es2 [].
Proof.
  induction es1 as [|entry rest IH]; simpl; [done|].
  destruct (Listing.reference_of_entry entry) as [p|]; [|apply IH].
  rewrite (collect_acc (rest ++ es2)), (collect_acc rest), IH.
  by rewrite <- app_assoc.
Qed.

(** The loop keeps exactly the entries that give a reference. *)
Lemma collect_omap (es : list Soup.Node) :
  Listing.collect es [] = omap Listing.reference_of_entry es.
Proof.
  induction es as [|entry rest IH]; simpl; [done|].
  destruct (Listing.reference_of_entry entry) as [p|]; [|apply IH].
  by rewrite collect_acc, IH.
Qed.

(** C7.  An entry of the listing that lacks the title paragraph or the
    abstract link adds nothing to [papers]: the references are those of
    the entries before it followed by those of the entries after it.  An
    entry that has both adds, at its place, the reference made of the
    stripped text of the title paragraph and the [href] of the link. *)
Theorem list_papers_skips_incomplete_entries
    (soup : Soup.Node) (before : list Soup.Node) (entry : Soup.Node)
    (after : list Soup.Node) :
  Listing.entries soup = before ++ entry :: after ->
  (Listing.title_element entry = None \/ Listing.link_element entry = None ->
   Listing.list_papers soup
   = Listing.collect before [] ++ Listing.collect after [])
  /\ (forall t l,
        Listing.title_element entry = Some t ->
        Listing.link_element entry = Some l ->
        Listing.list_papers soup
        = Listing.collect before []
          ++ {| ref_title := Soup.get_text_strip t;
                ref_link := Soup.get_attr "href" l |}
          :: Listing.collect after []).
Proof.
  intros Hes. unfold Listing.list_papers. rewrite Hes, collect_app. split.
  - intros Hmiss. f_equal. simpl. unfold Listing.reference_of_entry.
    destruct Hmiss as [-> | ->]; [done|].
    by destruct (Listing.title_element entry).
  - intros t l Ht Hl. f_equal. simpl. unfold Listing.reference_of_entry.
    rewrite Ht, Hl. by rewrite collect_acc.
Qed.

Lemma list_papers_skips_incomplete_entries_witness :
  Listing.list_papers Sample.page
  = [ {| ref_title := "Graphs"; ref_link := "https://arxiv.org/abs/1" |} ]
    ++ Listing.collect
         [Sample.li [Sample.abs_a "https://arxiv.org/abs/3"];
          Sample.li [Soup.Tag "div" [] ∅ [Sample.abs_a "https://arxiv.org/abs/4"];
                     Sample.title_p "Trees"]] [].
Proof.
  refine (proj1 (list_papers_skips_incomplete_entries Sample.page
            [Sample.li [Sample.abs_a "https://arxiv.org/abs/1";
                        Sample.title_p "  Graphs  "]]
            (Sample.li [Sample.title_p "No link"])
            [Sample.li [Sample.abs_a "https://arxiv.org/abs/3"];
             Sample.li [Soup.Tag "div" [] ∅ [Sample.abs_a "https://arxiv.org/abs/4"];
                        Sample.title_p "Trees"]] _) _).
  - vm_compute. reflexivity.
  - right. vm_compute. reflexivity.
Defined.

(* ===================================================================== *)
(** ** The loop over [papers] *)
(* ===================================================================== *)

Section WorkerFacts.

Context {W : Type} (env : Env W).

(** One turn of the loop never raises: it appends the entry that tells
    how the inner [try] ended. *)
Lemma process_paper_run (i : nat) (paper : PaperReference)
    (summaries : list PaperResult) (σ : St W) :
  Worker.process_paper env i paper summaries σ
  = (inr (summaries
          ++ [Run.item_result paper (Worker.summarize_paper env i paper σ).1]),
     Run.appended i
       (Run.item_result paper (Worker.summarize_paper env i paper σ).1)
       (Worker.summarize_paper env i paper σ).2).
Proof.
  unfold Worker.process_paper, try_except, bind at 1.
  destruct (Worker.summarize_paper env i paper σ) as [[e|summary_text] σ1];
    reflexivity.
Qed.

Lemma outcomes_cons (i : nat) (paper : PaperReference)
    (rest : list PaperReference) (σ : St W) :
  Run.outcomes env i (paper :: rest) σ
  = (Worker.summarize_paper env i paper σ).1
    :: Run.outcomes env (S i) rest
         (Run.appended i
            (Run.item_result paper (Worker.summarize_paper env i paper σ).1)
            (Worker.summarize_paper env i paper σ).2).
Proof.
  simpl. by destruct (Worker.summarize_paper env i paper σ).
Qed.

Lemma final_cons (i : nat) (paper : PaperReference)
    (rest : list PaperReference) (σ : St W) :
  Run.final env i (paper :: rest) σ
  = Run.final env (S i) rest
      (Run.appended i
         (Run.item_result paper (Worker.summarize_paper env i paper σ).1)
         (Worker.summarize_paper env i paper σ).2).
Proof.
  simpl. by destruct (Worker.summarize_paper env i paper σ).
Qed.

Lemma outcomes_length (papers : list PaperReference) :
  forall i σ, length (Run.outcomes env i papers σ) = length papers.
Proof.
  induction papers as [|paper rest IH]; intros i σ; [done|].
  rewrite outcomes_cons. simpl. by rewrite IH.
Qed.

(** The whole loop: it returns, with one entry per reference, in the
    order of the references. *)
Lemma summarize_all_run (papers : list PaperReference) :
  forall i summaries σ,
    Worker.summarize_all env i papers summaries σ
    = (inr (summaries
            ++ zip_with Run.item_result papers (Run.outcomes env i papers σ)),
       Run.final env i papers σ).
Proof.
  induction papers as [|paper rest IH]; intros i summaries σ.
  - simpl. unfold ret. by rewrite app_nil_r.
  - rewrite outcomes_cons, final_cons.
    cbn [Worker.summarize_all]. unfold bind at 1.
    rewrite process_paper_run, IH. cbn [zip_with].
    by rewrite <- app_assoc.
Qed.

(** The task when the listing is fetched: either no reference and the
    empty answer at once, or the loop and its entries. *)
Lemma scrape_listed (topic : string) (σ : St W) (response : Response) (w : W) :
  requests_get env (Worker.search_url topic) (world σ) = (inr response, w) ->
  raise_for_status response = inr tt ->
  Worker.scrape_and_summarize env topic σ
  = match Listing.list_papers (BeautifulSoup env (text response)) with
    | [] =>
        (inr (dumps (Worker.complete [])),
         {| world := w;
            log := log σ
                   ++ [EvUpdateState "PROGRESS"
                         (Worker.message "Starting to scrape...");
                       EvGet (Worker.search_url topic)] |})
    | paper :: rest =>
        let σ0 := Run.fan_out_start topic σ w (length (paper :: rest)) in
        (inr (dumps (Worker.complete
                       (zip_with Run.item_result (paper :: rest)
                          (Run.outcomes env 0 (paper :: rest) σ0)))),
         {| world := world (Run.final env 0 (paper :: rest) σ0);
            log := log (Run.final env 0 (paper :: rest) σ0)
                   ++ [EvUpdateState "PROGRESS"
                         (Worker.message
                            "Summarization complete. Wrapping up...")] |})
    end.
Proof.
  intros Hget Hstatus.
  unfold Worker.scrape_and_summarize, Worker.update_state.
  unfold bind at 1, emit at 1, try_except, bind at 1, call at 1.
  cbn [world log]. rewrite Hget.
  unfold bind at 1, lift. rewrite Hstatus.
  destruct (Listing.list_papers (BeautifulSoup env (text response)))
    as [|paper rest] eqn:Hpapers.
  - unfold ret. by rewrite <- app_assoc.
  - unfold bind at 1, emit at 1. cbn [world log].
    unfold bind at 1. rewrite summarize_all_run.
    unfold bind, emit, ret, Run.fan_out_start. cbn [world log].
    rewrite <- !app_assoc. reflexivity.
Qed.

(** The task when the listing fetch fails with a [RequestException]. *)
Lemma scrape_failed (topic : string) (σ : St W) (r : exn + Response) (w : W)
    (e : exn) :
  requests_get env (Worker.search_url topic) (world σ) = (r, w) ->
  Run.listing_failure r = Some e ->
  Worker.scrape_and_summarize env topic σ
  = (inr (dumps (Worker.failure (exn_str e))),
     {| world := w;
        log := log σ
               ++ [EvUpdateState "PROGRESS"
                     (Worker.message "Starting to scrape...");
                   EvGet (Worker.search_url topic);
                   EvUpdateState "FAILURE"
                     (JObject [("error", JString (exn_str e))])] |}).
Proof.
  intros Hget Hfail.
  unfold Worker.scrape_and_summarize, Worker.update_state.
  unfold bind at 1, emit at 1, try_except, bind at 1, call at 1.
  cbn [world log]. rewrite Hget.
  destruct r as [e'|response]; simpl in Hfail.
  - destruct (is_request_exception e') eqn:Hreq; [|done].
    injection Hfail as ->.
    unfold bind, emit, ret. cbn [world log]. by rewrite <- !app_assoc.
  - unfold bind at 1, lift.
    destruct (raise_for_status response) as [e'|[]] eqn:Hstatus; [|done].
    injection Hfail as ->.
    assert (is_request_exception e = true) as ->.
    { unfold raise_for_status in Hstatus.
      repeat case_bool_decide; by simplify_eq. }
    unfold bind, emit, ret. cbn [world log]. by rewrite <- !app_assoc.
Qed.

End WorkerFacts.

(* ===================================================================== *)
(** ** The order of the events of a run *)
(* ===================================================================== *)




Section LogFacts.

Context {W : Type} (env : Env W).



End LogFacts.

Section TaskLog.

Context {W : Type} (env : Env W).



End TaskLog.

(* ===================================================================== *)
(** ** The answer of the task *)
(* ===================================================================== *)

Lemma list_map_fmap {A B} (f : A -> B) (l : list A) : List.map f l = f <$> l.
Proof. induction l as [|x l IH]; simpl; [done | by rewrite IH]. Qed.

(** The answer of a run whose listing was fetched: the [complete] dict
    over the entries of the loop, which are none when no reference was
    found. *)
Lemma scrape_answer {W : Type} (env : Env W)
    (topic : string) (σ : St W) (response : Response) (w : W) :
  requests_get env (Worker.search_url topic) (world σ) = (inr response, w) ->
  raise_for_status response = inr tt ->
  let papers := Listing.list_papers (BeautifulSoup env (text response)) in
  (Worker.scrape_and_summarize env topic σ).1
  = inr (dumps (Worker.complete
                  (zip_with Run.item_result papers
                     (Run.outcomes env 0 papers
                        (Run.fan_out_start topic σ w (length papers)))))).
Proof.
  intros Hget Hstatus papers. subst papers.
  rewrite (scrape_listed env topic σ response w Hget Hstatus).
  by destruct (Listing.list_papers (BeautifulSoup env (text response))).
Qed.

(** The titles and links in the JSON of the entries of the loop are those
    of the references, one for one. *)
Lemma entries_titles_links (papers : list PaperReference) :
  forall outs : list (exn + string),
    (length papers <= length outs)%nat ->
    (fun entry => (json_get "title" entry, json_get "link" entry))
      <$> List.map Worker.paper_json (zip_with Run.item_result papers outs)
    = (fun p => (Some (JString (ref_title p)), Some (JString (ref_link p))))
        <$> papers.
Proof.
  induction papers as [|p papers IH]; intros [|o outs] Hlen; simpl in *;
    [done | done | lia |].
  rewrite IH by lia. by destruct o.
Qed.



(** C5.  When the listing is fetched, the entries of the [papers] list of
    the answer carry the titles and links of the references of the
    listing, one for one and in the order of the listing, whatever the
    world does while they are processed. *)
Theorem entries_follow_listing_order {W : Type} (env : Env W)
    (topic : string) (σ : St W) (response : Response) (w : W) :
  requests_get env (Worker.search_url topic) (world σ) = (inr response, w) ->
  raise_for_status response = inr tt ->
  exists answer entries σ',
    Worker.scrape_and_summarize env topic σ = (inr (dumps answer), σ')
    /\ json_get "papers" answer = Some (JArray entries)
    /\ (fun entry => (json_get "title" entry, json_get "link" entry)) <$> entries
       = (fun p => (Some (JString (ref_title p)), Some (JString (ref_link p))))
           <$> Listing.list_papers (BeautifulSoup env (text response)).
Proof.
  intros Hget Hstatus.
  pose proof (scrape_answer env topic σ response w Hget Hstatus) as Hanswer.
  cbv zeta in Hanswer.
  destruct (Worker.scrape_and_summarize env topic σ) as [r σ'].
  simpl in Hanswer. subst r.
  eexists _, _, σ'. split; [reflexivity|]. split; [reflexivity|].
  apply entries_titles_links. by rewrite outcomes_length.
Qed.

Lemma entries_follow_listing_order_witness :
  exists answer entries σ',
    Worker.scrape_and_summarize Demo.found "graph theory" Demo.start
    = (inr (dumps answer), σ')
    /\ json_get "papers" answer = Some (JArray entries)
    /\ (fun entry => (json_get "title" entry, json_get "link" entry)) <$> entries
       = [ (Some (JString "Graphs"), Some (JString "https://arxiv.org/abs/1"));
           (Some (JString "Trees"), Some (JString "https://arxiv.org/abs/4")) ].
Proof.
  exact (entries_follow_listing_order Demo.found "graph theory" Demo.start
           (Demo.ok 200 "OK") 1%nat eq_refl eq_refl).
Defined.

(** C10.  One turn of the loop appends one entry whose title and link are
    those of the reference, whether the inner [try] raised or not; the
    summary alone tells the two cases apart: the failure message with
    [str(e)], or the summary text. *)
Theorem entry_keeps_title_and_link {W : Type} (env : Env W) (i : nat)
    (paper : PaperReference) (summaries : list PaperResult) (σ : St W) :
  exists r σ',
    Worker.process_paper env i paper summaries σ = (inr (summaries ++ [r]), σ')
    /\ title r = ref_title paper
    /\ link r = ref_link paper
    /\ summary r
       = match (Worker.summarize_paper env i paper σ).1 with
         | inl e => "Could not generate summary: " +:+ exn_str e
         | inr summary_text => summary_text
         end.
Proof.
  rewrite process_paper_run. eexists _, _. split; [reflexivity|].
  by destruct (Worker.summarize_paper env i paper σ).1.
Qed.

(** C6.  When the listing is fetched and gives no reference, because
    the page has no result entry or because every entry was skipped, the
    task returns the [complete] answer with no papers right after the
    fetch: it makes no call for any paper, appends nothing, and reports
    no further progress. *)
Theorem empty_listing_completes_at_once {W : Type} (env : Env W)
    (topic : string) (σ : St W) (response : Response) (w : W) :
  requests_get env (Worker.search_url topic) (world σ) = (inr response, w) ->
  raise_for_status response = inr tt ->
  Listing.list_papers (BeautifulSoup env (text response)) = [] ->
  Worker.scrape_and_summarize env topic σ
  = (inr (dumps (JObject [("status", JString "complete"); ("papers", JArray [])])),
     {| world := w;
        log := log σ
               ++ [EvUpdateState "PROGRESS"
                     (JObject [("message", JString "Starting to scrape...")]);
                   EvGet (Worker.search_url topic)] |}).
Proof.
  intros Hget Hstatus Hpapers.
  rewrite (scrape_listed env topic σ response w Hget Hstatus).
  by rewrite Hpapers.
Qed.

Lemma empty_listing_completes_at_once_witness :
  length (Listing.entries Skipped.page) = 2%nat
  /\ Worker.scrape_and_summarize Skipped.env "graph theory" Demo.start
     = (inr (dumps (JObject [("status", JString "complete"); ("papers", JArray [])])),
        {| world := 1%nat;
           log := log Demo.start
                  ++ [EvUpdateState "PROGRESS"
                        (JObject [("message", JString "Starting to scrape...")]);
                      EvGet (Worker.search_url "graph theory")] |}).
Proof.
  split; [reflexivity|].
  exact (empty_listing_completes_at_once Skipped.env "graph theory" Demo.start
           (Demo.ok 200 "OK") 1%nat eq_refl eq_refl eq_refl).
Defined.

(* ===================================================================== *)
(** ** Failure of the listing fetch *)
(* ===================================================================== *)

(** The text of the [HTTPError] of a 4xx or 5xx answer is never empty. *)
Lemma http_error_text_nonempty (response : Response) (e : exn) :
  raise_for_status response = inl e -> exn_str e <> "".
Proof.
  unfold raise_for_status. intros H.
  repeat case_bool_decide; simplify_eq; cbn [exn_str];
    by destruct (pretty (status_code response)).
Qed.

(** C2, as the code has it.  When the listing fetch fails, by a
    [RequestException] raised in [requests.get] or by a 4xx or 5xx status,
    the task sets the state [FAILURE] and returns the [failure] answer;
    the error recorded in both is the text [str(e)] of the exception, the
    answer has no [papers] field, and for a 4xx or 5xx status the error is
    not empty. *)
Theorem listing_failure_fails_the_job {W : Type} (env : Env W)
    (topic : string) (σ : St W) (r : exn + Response) (w : W) (e : exn) :
  requests_get env (Worker.search_url topic) (world σ) = (r, w) ->
  Run.listing_failure r = Some e ->
  exists σ' new,
    Worker.scrape_and_summarize env topic σ
    = (inr (dumps (Worker.failure (exn_str e))), σ')
    /\ json_get "status" (Worker.failure (exn_str e)) = Some (JString "failure")
    /\ json_get "error" (Worker.failure (exn_str e)) = Some (JString (exn_str e))
    /\ json_get "papers" (Worker.failure (exn_str e)) = None
    /\ log σ' = log σ ++ new
    /\ last new
       = Some (EvUpdateState "FAILURE" (JObject [("error", JString (exn_str e))]))
    /\ (forall response, r = inr response -> exn_str e <> "").
Proof.
  intros Hget Hfail.
  rewrite (scrape_failed env topic σ r w e Hget Hfail).
  eexists _, _. split; [reflexivity|]. do 3 (split; [reflexivity|]).
  split; [reflexivity|]. split; [reflexivity|].
  intros response ->. simpl in Hfail.
  destruct (raise_for_status response) as [e'|] eqn:Hstatus; [|done].
  injection Hfail as ->. by eapply http_error_text_nonempty.
Qed.

Lemma listing_failure_fails_the_job_witness :
  exists σ' new,
    Worker.scrape_and_summarize Demo.missing "graph theory" Demo.start
    = (inr (dumps (Worker.failure
                     "404 Client Error: Not Found for url: https://arxiv.org/search/?query=graph+theory&searchtype=all")),
       σ')
    /\ json_get "status" (Worker.failure
         "404 Client Error: Not Found for url: https://arxiv.org/search/?query=graph+theory&searchtype=all")
       = Some (JString "failure")
    /\ json_get "error" (Worker.failure
         "404 Client Error: Not Found for url: https://arxiv.org/search/?query=graph+theory&searchtype=all")
       = Some (JString
         "404 Client Error: Not Found for url: https://arxiv.org/search/?query=graph+theory&searchtype=all")
    /\ json_get "papers" (Worker.failure
         "404 Client Error: Not Found for url: https://arxiv.org/search/?query=graph+theory&searchtype=all")
       = None
    /\ log σ' = log Demo.start ++ new
    /\ last new
       = Some (EvUpdateState "FAILURE" (JObject [("error", JString
         "404 Client Error: Not Found for url: https://arxiv.org/search/?query=graph+theory&searchtype=all")]))
    /\ (forall response,
          inr (Demo.ok 404 "Not Found") = @inr exn Response response ->
          "404 Client Error: Not Found for url: https://arxiv.org/search/?query=graph+theory&searchtype=all"
          <> "").
Proof.
  exact (listing_failure_fails_the_job Demo.missing "graph theory" Demo.start
           (inr (Demo.ok 404 "Not Found")) 1%nat
           {| is_request_exception := true;
              exn_str := "404 Client Error: Not Found for url: https://arxiv.org/search/?query=graph+theory&searchtype=all" |}
           eq_refl eq_refl).
Defined.

(** C2, as stated, fails: [requests.get] raises a [RequestException] whose
    text is empty, the listing fetch has failed, and the error recorded
    is the empty string. *)
Lemma listing_failure_with_empty_error :
  Run.listing_failure
    (requests_get Demo.unreachable (Worker.search_url "graph theory")
       (world Demo.start)).1
  = Some {| is_request_exception := true; exn_str := "" |}
  /\ (Worker.scrape_and_summarize Demo.unreachable "graph theory" Demo.start).1
     = inr (dumps (Worker.failure ""))
  /\ ~ failed_with_nonempty_error
         (Worker.scrape_and_summarize Demo.unreachable "graph theory"
            Demo.start).1.
Proof.
  split; [reflexivity|]. split; [reflexivity|].
  intros (error & Hreturned & Hnonempty).
  vm_compute in Hreturned. by simplify_eq.
Qed.

(* ===================================================================== *)
(** ** The order in which the references are processed *)
(* ===================================================================== *)




(* ===================================================================== *)
(** ** The routes *)
(* ===================================================================== *)

(** C3, as the code has it.  [POST /submit] answers 400 with
    ["Topic is required"], queues nothing and returns no task id exactly
    when the [topic] field is missing or is the empty string; for every
    other topic, one made of blanks included, it queues one message with a
    fresh id and that topic and answers 202 with the id, without running
    the task. *)
Theorem submit_rejects_only_a_missing_or_empty_topic
    (form : gmap string string) (b : Web.Broker) :
  (form !! "topic" = None \/ form !! "topic" = Some "" ->
   Web.submit_topic form b
   = ({| Web.body := JObject [("error", JString "Topic is required")];
         Web.code := 400 |}, b))
  /\ (forall topic,
        form !! "topic" = Some topic -> topic <> "" ->
        Web.submit_topic form b
        = ({| Web.body := JObject [("task_id", JString (Web.uuid b (Web.issued b)))];
              Web.code := 202 |},
           {| Web.uuid := Web.uuid b; Web.issued := S (Web.issued b);
              Web.queue := Web.queue b ++ [(Web.uuid b (Web.issued b), topic)] |})).
Proof.
  unfold Web.submit_topic. split.
  - by intros [-> | ->].
  - intros topic -> Hne. by destruct topic.
Qed.

Lemma submit_rejects_only_a_missing_or_empty_topic_witness :
  Web.submit_topic (<["topic" := ""]> ∅) Demo.broker
  = ({| Web.body := JObject [("error", JString "Topic is required")];
        Web.code := 400 |}, Demo.broker)
  /\ Web.submit_topic (<["topic" := "graph theory"]> ∅) Demo.broker
     = ({| Web.body := JObject [("task_id", JString "task-0")]; Web.code := 202 |},
        {| Web.uuid := Demo.uuids; Web.issued := 1;
           Web.queue := [("task-0", "graph theory")] |}).
Proof.
  split.
  - apply (proj1 (submit_rejects_only_a_missing_or_empty_topic
                    (<["topic" := ""]> ∅) Demo.broker)).
    right. reflexivity.
  - apply (proj2 (submit_rejects_only_a_missing_or_empty_topic
                    (<["topic" := "graph theory"]> ∅) Demo.broker)
             "graph theory"); [reflexivity | discriminate].
Defined.

(** C3, as stated, fails: the topic made of three blanks is empty once
    trimmed, yet it is accepted: the answer is 202 with a task id and one
    message is queued. *)
Lemma blank_topic_is_accepted :
  Py.strip "   " = ""
  /\ Web.is_error (Web.submit_topic (<["topic" := "   "]> ∅) Demo.broker).1 = false
  /\ (Web.submit_topic (<["topic" := "   "]> ∅) Demo.broker).1
     = {| Web.body := JObject [("task_id", JString "task-0")]; Web.code := 202 |}
  /\ Web.queue (Web.submit_topic (<["topic" := "   "]> ∅) Demo.broker).2
     = [("task-0", "   ")].
Proof. repeat split; vm_compute; reflexivity. Qed.

(** C4, as the code has it.  [GET /status/<task_id>] for an id the backend
    has no entry for (never issued, or expired) answers 202 with the
    status [pending]. *)
Theorem unknown_task_id_reads_pending
    (task_id : string) (backend : gmap string Web.TaskMeta) :
  backend !! task_id = None ->
  Web.get_task_status task_id backend
  = {| Web.body := JObject [("status", JString "pending")]; Web.code := 202 |}.
Proof.
  intros Hnone. unfold Web.get_task_status, Web.AsyncResult. by rewrite Hnone.
Qed.

Lemma unknown_task_id_reads_pending_witness :
  Web.get_task_status "nonexistent-id" ∅
  = {| Web.body := JObject [("status", JString "pending")]; Web.code := 202 |}.
Proof.
  exact (unknown_task_id_reads_pending "nonexistent-id" ∅ eq_refl).
Defined.

(** C4, as stated, fails: the status of an id that never existed is not an
    error answer. *)
Lemma unknown_task_id_is_not_an_error :
  (∅ : gmap string Web.TaskMeta) !! "nonexistent-id" = None
  /\ Web.is_error (Web.get_task_status "nonexistent-id" ∅) = false
  /\ Web.code (Web.get_task_status "nonexistent-id" ∅) = 202%Z.
Proof. repeat split; vm_compute; reflexivity. Qed.

(** What a poll reads once a worker has run the task to its return, the
    task not having set [FAILURE] itself: the answer the task returned,
    under [ready]. *)
Lemma poll_after_return {W : Type} (env : Env W) (task_id topic : string)
    (w : W) (backend : gmap string Web.TaskMeta) (s : JsonStr) (σ' : St W) :
  Worker.scrape_and_summarize env topic {| world := w; log := [] |} = (inr s, σ') ->
  Web.sets_failure (log σ') = false ->
  Web.get_task_status task_id (Web.run_task env task_id topic w backend).1
  = {| Web.body := JObject [("status", JString "ready"); ("result", loads s)];
       Web.code := 200 |}.
Proof.
  intros Hrun Hnofail. unfold Web.run_task. rewrite Hrun, Hnofail. cbn [fst].
  unfold Web.get_task_status, Web.AsyncResult. by rewrite lookup_insert_eq.
Qed.

(* ===================================================================== *)
(** ** The summarizer *)
(* ===================================================================== *)

Example summarize_sample :
  List.map sentence_text (Luhn.summarize 1 10 4 LuhnSample.doc 3)
  = [ "graph theory studies graph colouring";
      "colouring a planar graph needs four colours";
      "planar graph colouring is hard" ].
Proof. vm_compute. reflexivity. Qed.

Lemma filter_all {A} (f : A -> bool) (l : list A) :
  (forall x, x ∈ l -> f x = true) -> List.filter f l = l.
Proof.
  induction l as [|x l IH]; intros Hall; simpl; [done|].
  rewrite (Hall x) by apply list_elem_of_here.
  rewrite IH; [done|]. intros y Hy. apply Hall. by apply list_elem_of_further.
Qed.

(** Putting a sentence into the ranking neither drops nor repeats one. *)
Lemma rank_insert_perm (x : nat * Q) (l : list (nat * Q)) :
  Luhn.rank_insert x l ≡ₚ x :: l.
Proof.
  induction l as [|y rest IH]; simpl; [done|].
  destruct (Qle_bool y.2 x.2); [done|].
  rewrite IH. apply Permutation_swap.
Qed.

Section LuhnFacts.

Variables (low high max_gap : nat).

(** The ranking holds every position of the document once. *)
Lemma ranking_positions (doc : Document) :
  (Luhn.ranking low high max_gap doc).*1 ≡ₚ seq 0 (length doc).
Proof.
  unfold Luhn.ranking.
  rewrite <- (fst_zip (seq 0 (length doc))
                (List.map (Luhn.rate low high max_gap doc) doc)) at 2
    by (rewrite length_seq, length_map; done).
  generalize (zip (seq 0 (length doc))
                (List.map (Luhn.rate low high max_gap doc) doc)).
  intros l. induction l as [|x l IH]; simpl; [done|].
  rewrite rank_insert_perm. simpl. by rewrite IH.
Qed.

(** Choosing every position gives the document back. *)
Lemma pick_all (chosen : list nat) (doc : Document) :
  (forall i, (i < length doc)%nat -> i ∈ chosen) ->
  Luhn.pick chosen doc = doc.
Proof.
  intros Hall. unfold Luhn.pick. rewrite filter_all.
  - rewrite list_map_fmap. apply snd_zip. by rewrite length_seq.
  - intros [i s] Hin. apply bool_decide_eq_true. apply Hall.
    apply elem_of_zip_l in Hin. apply elem_of_seq in Hin. simpl. lia.
Qed.

(** Ranking and choosing keep a document that is short enough whole. *)
Lemma select_top_short (doc : Document) (sentence_count : nat) :
  (length doc <= sentence_count)%nat ->
  Luhn.select_top low high max_gap doc sentence_count = doc.
Proof.
  intros Hshort. unfold Luhn.select_top. apply pick_all. intros i Hi.
  rewrite list_map_fmap.
  assert (length (Luhn.ranking low high max_gap doc) = length doc) as Hlen.
  { rewrite <- (length_fmap fst), ranking_positions. apply length_seq. }
  rewrite take_ge by lia.
  rewrite ranking_positions. apply elem_of_seq. lia.
Qed.

End LuhnFacts.

(** C8.  Asked for at least as many sentences as the document has, the
    summarizer returns the document as it is, every sentence at its place;
    this is the early return, taken without scoring, and ranking the
    sentences would select the same.  The empty document gives the empty
    summary. *)
Theorem summarize_returns_a_short_document_whole
    (low high max_gap : nat) (doc : Document) (sentence_count : nat) :
  (length doc <= sentence_count)%nat ->
  Luhn.summarize low high max_gap doc sentence_count = doc
  /\ Luhn.select_top low high max_gap doc sentence_count = doc
  /\ Luhn.summarize low high max_gap [] sentence_count = [].
Proof.
  intros Hshort. split; [|split].
  - unfold Luhn.summarize. by rewrite (proj2 (Nat.leb_le _ _) Hshort).
  - by apply select_top_short.
  - reflexivity.
Qed.

Lemma summarize_returns_a_short_document_whole_witness :
  Luhn.summarize 1 10 4 LuhnSample.doc 5 = LuhnSample.doc
  /\ Luhn.select_top 1 10 4 LuhnSample.doc 5 = LuhnSample.doc
  /\ Luhn.summarize 1 10 4 [] 5 = [].
Proof.
  apply (summarize_returns_a_short_document_whole 1 10 4 LuhnSample.doc 5).
  vm_compute. lia.
Defined.

(* ===================================================================== *)
(** ** More on the listing parse *)
(* ===================================================================== *)

(** The first element that passes a filter: it passes, and nothing before
    it does. *)
Lemma head_filter_first {A} (f : A -> bool) (l : list A) (x : A) :
  head (List.filter f l) = Some x ->
  f x = true
  /\ exists before after,
       l = before ++ x :: after /\ Forall (fun y => f y = false) before.
Proof.
  induction l as [|y l IH]; simpl; [done|].
  destruct (f y) eqn:Hy; simpl.
  - intros [= ->]. split; [done|]. by exists [], l.
  - intros Hhead. destruct (IH Hhead) as (Hx & before & after & -> & Hnone).
    split; [done|]. exists (y :: before), after. split; [done|].
    by constructor.
Qed.

(** X1.  The references are made from the listing entries in listing
    order, at most one per entry: [papers] is the list of the references
    of the entries that have one, so it is never longer than the list of
    entries. *)
Theorem list_papers_in_listing_order (soup : Soup.Node) :
  Listing.list_papers soup
  = omap Listing.reference_of_entry (Listing.entries soup)
  /\ (length (Listing.list_papers soup) <= length (Listing.entries soup))%nat.
Proof.
  unfold Listing.list_papers. rewrite collect_omap. split; [done|].
  induction (Listing.entries soup) as [|entry rest IH]; [done|].
  cbn [omap list_omap]. destruct (Listing.reference_of_entry entry);
    cbn [length]; lia.
Qed.

(** X2.  The link element found in an entry is an [a] tag that has an
    [href] attribute and the title ["Abstract"], and it is the first such
    tag below the entry: reading [link_element["href"]] finds the
    attribute, and the link of the reference is its value as it stands in
    the page. *)
Theorem link_element_has_href (entry l : Soup.Node) :
  Listing.link_element entry = Some l ->
  exists class attrs contents href before after,
    l = Soup.Tag "a" class attrs contents
    /\ attrs !! "href" = Some href
    /\ attrs !! "title" = Some "Abstract"
    /\ Soup.get_attr "href" l = href
    /\ Soup.descendants entry = before ++ l :: after
    /\ Forall (fun n =>
                 Soup.matches "a"
                   [Soup.has_attr "href"; Soup.attr_is "title" "Abstract"] n
                 = false) before.
Proof.
  unfold Listing.link_element, Soup.find, Soup.find_all. intros Hfind.
  apply head_filter_first in Hfind as (Hmatch & before & after & Hsplit & Hnone).
  destruct l as [|name class attrs contents]; [done|].
  simpl in Hmatch.
  apply andb_prop in Hmatch as [Hname Hfilters].
  apply String.eqb_eq in Hname as ->.
  apply andb_prop in Hfilters as [Hhref Htitle].
  apply andb_prop in Htitle as [Htitle _].
  apply bool_decide_eq_true in Hhref as [href Hhref].
  apply bool_decide_eq_true in Htitle.
  exists class, attrs, contents, href, before, after.
  repeat split; try done. simpl. by rewrite Hhref.
Qed.

Lemma link_element_has_href_witness :
  exists class attrs contents href before after,
    Sample.abs_a "https://arxiv.org/abs/4" = Soup.Tag "a" class attrs contents
    /\ attrs !! "href" = Some href
    /\ attrs !! "title" = Some "Abstract"
    /\ Soup.get_attr "href" (Sample.abs_a "https://arxiv.org/abs/4") = href
    /\ Soup.descendants
         (Sample.li [Soup.Tag "div" [] ∅ [Sample.abs_a "https://arxiv.org/abs/4"];
                     Sample.title_p "Trees"])
       = before ++ Sample.abs_a "https://arxiv.org/abs/4" :: after
    /\ Forall (fun n =>
                 Soup.matches "a"
                   [Soup.has_attr "href"; Soup.attr_is "title" "Abstract"] n
                 = false) before.
Proof.
  apply (link_element_has_href
           (Sample.li [Soup.Tag "div" [] ∅ [Sample.abs_a "https://arxiv.org/abs/4"];
                       Sample.title_p "Trees"])
           (Sample.abs_a "https://arxiv.org/abs/4")).
  vm_compute. reflexivity.
Defined.

(** X3.  The title element found in an entry is a [p] tag whose classes
    match ["title is-5 mathjax"], and it is the first such tag below the
    entry in document order: a later matching paragraph is never used. *)
Theorem title_element_is_first_match (entry t : Soup.Node) :
  Listing.title_element entry = Some t ->
  exists class attrs contents before after,
    t = Soup.Tag "p" class attrs contents
    /\ Soup.class_matches "title is-5 mathjax" class = true
    /\ Soup.descendants entry = before ++ t :: after
    /\ Forall (fun n =>
                 Soup.matches "p" [Soup.class_ "title is-5 mathjax"] n = false)
         before.
Proof.
  unfold Listing.title_element, Soup.find, Soup.find_all. intros Hfind.
  apply head_filter_first in Hfind as (Hmatch & before & after & Hsplit & Hnone).
  destruct t as [|name class attrs contents]; [done|].
  simpl in Hmatch.
  apply andb_prop in Hmatch as [Hname Hclass].
  apply String.eqb_eq in Hname as ->.
  apply andb_prop in Hclass as [Hclass _].
  by exists class, attrs, contents, before, after.
Qed.

Lemma title_element_is_first_match_witness :
  exists class attrs contents before after,
    Sample.title_p "Trees" = Soup.Tag "p" class attrs contents
    /\ Soup.class_matches "title is-5 mathjax" class = true
    /\ Soup.descendants
         (Sample.li [Sample.title_p "Trees"; Sample.title_p "Forests"])
       = before ++ Sample.title_p "Trees" :: after
    /\ Forall (fun n =>
                 Soup.matches "p" [Soup.class_ "title is-5 mathjax"] n = false)
         before.
Proof.
  apply (title_element_is_first_match
           (Sample.li [Sample.title_p "Trees"; Sample.title_p "Forests"])
           (Sample.title_p "Trees")).
  vm_compute. reflexivity.
Defined.

(* ===================================================================== *)
(** ** More on the trace of a run *)
(* ===================================================================== *)

Lemma script_NoDup (i : nat) (paper : PaperReference) :
  NoDup (Trace.script i paper).
Proof.
  unfold Trace.script. repeat constructor; set_unfold; intuition simplify_eq.
Qed.

Lemma script_calls (i : nat) (paper : PaperReference) (ev : Event) :
  ev ∈ Trace.script i paper -> exists c, ev = EvCall i c.
Proof.
  unfold Trace.script. set_unfold. intros H.
  repeat (destruct H as [-> | H]; [by eexists|]). done.
Qed.

Section TraceFacts.

Context {W : Type} (env : Env W).

(** The inner [try] goes through its script and stops where a call
    raises. *)
Lemma summarize_paper_script (i : nat) (paper : PaperReference) (σ : St W) :
  exists calls,
    log (Worker.summarize_paper env i paper σ).2 = log σ ++ calls
    /\ calls `prefix_of` Trace.script i paper.
Proof.
  unfold Worker.summarize_paper, bind, call, ret.
  destruct (Tokenizer env "english" (world σ)) as [[?|?] ?]; cbn [world log snd].
  { eexists. split; [reflexivity|]. eexists. reflexivity. }
  destruct (from_url env (ref_link paper) _) as [[?|?] ?]; cbn [world log snd].
  { eexists. rewrite <- !app_assoc. split; [reflexivity|]. eexists. reflexivity. }
  destruct (Stemmer env "english" _) as [[?|?] ?]; cbn [world log snd].
  { eexists. rewrite <- !app_assoc. split; [reflexivity|]. eexists. reflexivity. }
  destruct (get_stop_words env "english" _) as [[?|?] ?]; cbn [world log snd].
  { eexists. rewrite <- !app_assoc. split; [reflexivity|]. eexists. reflexivity. }
  destruct (document env _ _) as [[?|?] ?]; cbn [world log snd].
  { eexists. rewrite <- !app_assoc. split; [reflexivity|]. eexists. reflexivity. }
  destruct (summarizer env _ _ _) as [[?|?] ?]; cbn [world log snd].
  { eexists. rewrite <- !app_assoc. split; [reflexivity|]. eexists. reflexivity. }
  eexists. rewrite <- !app_assoc. split; [reflexivity|]. exists []. reflexivity.
Qed.

Lemma of_loop_later (i : nat) (paper : PaperReference)
    (rest : list PaperReference) (ev : Event) :
  Trace.of_loop (S i) rest ev -> Trace.of_loop i (paper :: rest) ev.
Proof.
  destruct ev as [| |k c|k r]; simpl; try done.
  - intros (p & Hle & Hp & Hin). exists p. split; [lia|]. split; [|done].
    replace (k - i)%nat with (S (k - S i)) by lia. done.
  - lia.
Qed.

(** The events of the loop: none twice, each a call of the script of a
    reference or the append of a result, the appends being those of the
    returned entries, one per position and in order. *)
Lemma loop_trace (papers : list PaperReference) :
  forall i σ,
    exists new,
      log (Run.final env i papers σ) = log σ ++ new
      /\ NoDup new
      /\ Forall (Trace.of_loop i papers) new
      /\ omap Trace.append_of new
         = zip (seq i (length papers))
             (zip_with Run.item_result papers (Run.outcomes env i papers σ)).
Proof.
  induction papers as [|paper rest IH]; intros i σ.
  - exists []. simpl. rewrite app_nil_r. repeat split; constructor.
  - rewrite final_cons, outcomes_cons.
    destruct (summarize_paper_script i paper σ) as (calls & Hcalls & Hprefix).
    set (r := Run.item_result paper (Worker.summarize_paper env i paper σ).1).
    destruct (IH (S i) (Run.appended i r (Worker.summarize_paper env i paper σ).2))
      as (new & Hnew & Hnodup & Hloop & Happs).
    assert (forall ev, ev ∈ calls -> exists c, ev = EvCall i c) as Hcall.
    { intros ev Hev. apply (script_calls i paper).
      destruct Hprefix as [k ->]. apply elem_of_app. by left. }
    rewrite Forall_forall in Hloop.
    exists (calls ++ [EvAppend i r] ++ new). split; [|split; [|split]].
    + rewrite Hnew. unfold Run.appended. cbn [log]. rewrite Hcalls.
      by rewrite <- !app_assoc.
    + apply NoDup_app. split; [|split].
      * destruct Hprefix as [k Hk]. pose proof (script_NoDup i paper) as Hs.
        rewrite Hk in Hs. by apply NoDup_app in Hs as [? _].
      * intros ev Hev Hin. destruct (Hcall ev Hev) as [c ->].
        apply elem_of_app in Hin as [Hin | Hin];
          [apply list_elem_of_singleton in Hin; discriminate Hin|].
        apply Hloop in Hin. simpl in Hin. destruct Hin as (p & Hle & _). lia.
      * simpl. constructor; [|done]. intros Hin. apply Hloop in Hin.
        simpl in Hin. lia.
    + apply Forall_app. split; [|apply Forall_app; split].
      * apply Forall_forall. intros ev Hev. destruct (Hcall ev Hev) as [c ->].
        simpl. exists paper. split; [lia|]. rewrite Nat.sub_diag.
        split; [done|]. destruct Hprefix as [k ->]. apply elem_of_app. by left.
      * repeat constructor; simpl; lia.
      * apply Forall_forall. intros ev Hev. by apply of_loop_later, Hloop.
    + rewrite !omap_app, Happs.
      assert (omap Trace.append_of calls = []) as ->.
      { clear -Hcall. induction calls as [|ev calls IHc]; [done|].
        destruct (Hcall ev) as [c ->]; [apply list_elem_of_here|].
        simpl. apply IHc. intros ev' Hev'. apply Hcall.
        by apply list_elem_of_further. }
      reflexivity.
Qed.

(** The task when [requests.get] raises something that is not a
    [RequestException]: nothing catches it. *)
Lemma scrape_escaped (topic : string) (σ : St W) (e : exn) (w : W) :
  requests_get env (Worker.search_url topic) (world σ) = (inl e, w) ->
  is_request_exception e = false ->
  Worker.scrape_and_summarize env topic σ
  = (inl e,
     {| world := w;
        log := log σ
               ++ [EvUpdateState "PROGRESS"
                     (Worker.message "Starting to scrape...");
                   EvGet (Worker.search_url topic)] |}).
Proof.
  intros Hget Hclass.
  unfold Worker.scrape_and_summarize, Worker.update_state.
  unfold bind at 1, emit at 1, try_except, bind at 1, call at 1.
  cbn [world log]. rewrite Hget, Hclass. by rewrite <- app_assoc.
Qed.

(** The events of a run whose listing was fetched. *)
Lemma task_trace_listed (topic : string) (σ : St W) (response : Response) (w : W) :
  requests_get env (Worker.search_url topic) (world σ) = (inr response, w) ->
  raise_for_status response = inr tt ->
  let papers := Listing.list_papers (BeautifulSoup env (text response)) in
  exists results new,
    Worker.scrape_and_summarize env topic σ
    = (inr (dumps (Worker.complete results)),
       {| world := world (Worker.scrape_and_summarize env topic σ).2;
          log := log σ ++ new |})
    /\ NoDup new
    /\ omap Trace.get_of new = [Worker.search_url topic]
    /\ Forall (fun ev => forall s, Trace.state_of ev = Some s -> s = "PROGRESS") new
    /\ omap Trace.append_of new = zip (seq 0 (length results)) results
    /\ forall k c, EvCall k c ∈ new ->
         exists p, papers !! k = Some p /\ EvCall k c ∈ Trace.script k p.
Proof.
  intros Hget Hstatus papers. subst papers.
  rewrite (scrape_listed env topic σ response w Hget Hstatus).
  destruct (Listing.list_papers (BeautifulSoup env (text response)))
    as [|paper rest].
  - exists [], [EvUpdateState "PROGRESS" (Worker.message "Starting to scrape...");
                EvGet (Worker.search_url topic)].
    split; [reflexivity|]. split.
    { repeat constructor; set_unfold; intuition simplify_eq. }
    split; [reflexivity|]. split.
    { repeat constructor; simpl; congruence. }
    split; [reflexivity|]. intros k c Hin. set_unfold in Hin.
    intuition simplify_eq.
  - cbv zeta. cbn [snd world].
    set (σ0 := Run.fan_out_start topic σ w (length (paper :: rest))).
    destruct (loop_trace (paper :: rest) 0 σ0)
      as (fan & Hfan & Hnodup & Hloop & Happs).
    rewrite Forall_forall in Hloop.
    assert (forall ev, ev ∈ fan -> Trace.get_of ev = None
                                   /\ Trace.state_of ev = None) as Hkind.
    { intros ev Hev. apply Hloop in Hev. by destruct ev. }
    exists (zip_with Run.item_result (paper :: rest)
              (Run.outcomes env 0 (paper :: rest) σ0)).
    exists ([EvUpdateState "PROGRESS" (Worker.message "Starting to scrape...");
             EvGet (Worker.search_url topic);
             EvUpdateState "PROGRESS"
               (Worker.message ("Found " +:+ pretty (length (paper :: rest))
                                +:+ " papers. Starting summarization..."))]
            ++ fan
            ++ [EvUpdateState "PROGRESS"
                  (Worker.message "Summarization complete. Wrapping up...")]).
    split; [|split; [|split; [|split; [|split]]]].
    + rewrite Hfan. subst σ0. unfold Run.fan_out_start. cbn [log].
      by rewrite <- !app_assoc.
    + apply NoDup_app. split; [|split].
      * repeat constructor; set_unfold; intuition simplify_eq.
      * intros ev Hev Hin. apply elem_of_app in Hin as [Hin | Hin].
        -- apply Hkind in Hin as [Hg Hs]. set_unfold in Hev.
           destruct Hev as [-> | [-> | [-> | []]]]; simpl in *; congruence.
        -- apply list_elem_of_singleton in Hin as ->. set_unfold in Hev.
           intuition simplify_eq.
      * apply NoDup_app. split; [done|].
        split; [|repeat constructor; apply not_elem_of_nil].
        intros ev Hev Hin. apply Hkind in Hev as [_ Hs].
        apply list_elem_of_singleton in Hin as ->. discriminate Hs.
    + rewrite !omap_app.
      assert (omap Trace.get_of fan = []) as ->; [|reflexivity].
      clear -Hkind. induction fan as [|ev fan IHf]; [done|]. simpl.
      rewrite (proj1 (Hkind ev ltac:(apply list_elem_of_here))).
      apply IHf. intros ev' Hev'. apply Hkind. by apply list_elem_of_further.
    + apply Forall_app. split; [repeat constructor; simpl; congruence|].
      apply Forall_app. split; [|repeat constructor; simpl; congruence].
      apply Forall_forall. intros ev Hev s Hs.
      apply Hkind in Hev as [_ Hnone]. congruence.
    + rewrite (length_zip_with_l_eq Run.item_result (paper :: rest))
        by (by rewrite outcomes_length).
      rewrite !omap_app, Happs. cbn [omap list_omap Trace.append_of app].
      by rewrite app_nil_r.
    + intros k c Hin. apply elem_of_app in Hin as [Hin | Hin];
        [set_unfold in Hin; destruct Hin as [Hin|[Hin|[Hin|[]]]];
         discriminate Hin|].
      apply elem_of_app in Hin as [Hin | Hin];
        [|apply list_elem_of_singleton in Hin; discriminate Hin].
      apply Hloop in Hin. simpl in Hin. destruct Hin as (p & _ & Hp & Hs).
      exists p. by rewrite Nat.sub_0_r in Hp.
Qed.

End TraceFacts.

(** X4.  When the listing is fetched, the entries of the [papers] list
    of the answer are the entries the loop appended, each as the dict of
    its title, link and summary: one append per entry, at the position of
    the entry, in order, and no other append. *)
Theorem answer_is_what_was_appended {W : Type} (env : Env W)
    (topic : string) (σ : St W) (response : Response) (w : W) :
  requests_get env (Worker.search_url topic) (world σ) = (inr response, w) ->
  raise_for_status response = inr tt ->
  exists answer entries σ' new,
    Worker.scrape_and_summarize env topic σ = (inr (dumps answer), σ')
    /\ log σ' = log σ ++ new
    /\ json_get "papers" answer = Some (JArray entries)
    /\ (omap Trace.append_of new).*1 = seq 0 (length entries)
    /\ entries
       = (fun ir => JObject [("title", JString (title ir.2));
                             ("link", JString (link ir.2));
                             ("summary", JString (summary ir.2))])
           <$> omap Trace.append_of new.
Proof.
  intros Hget Hstatus.
  destruct (task_trace_listed env topic σ response w Hget Hstatus)
    as (results & new & Hrun & _ & _ & _ & Happs & _).
  exists (Worker.complete results), (List.map Worker.paper_json results).
  eexists _, new. split; [exact Hrun|]. split; [reflexivity|].
  split; [reflexivity|]. rewrite Happs, length_map. split.
  - apply fst_zip. by rewrite length_seq.
  - rewrite list_map_fmap.
    rewrite <- (snd_zip (seq 0 (length results)) results) at 1
      by (by rewrite length_seq).
    rewrite <- list_fmap_compose. apply list_fmap_ext.
    intros i [k r] _. reflexivity.
Qed.

Lemma answer_is_what_was_appended_witness :
  exists answer entries σ' new,
    Worker.scrape_and_summarize Demo.found "graph theory" Demo.start
    = (inr (dumps answer), σ')
    /\ log σ' = log Demo.start ++ new
    /\ json_get "papers" answer = Some (JArray entries)
    /\ (omap Trace.append_of new).*1 = seq 0 (length entries)
    /\ entries
       = (fun ir => JObject [("title", JString (title ir.2));
                             ("link", JString (link ir.2));
                             ("summary", JString (summary ir.2))])
           <$> omap Trace.append_of new.
Proof.
  exact (answer_is_what_was_appended Demo.found "graph theory" Demo.start
           (Demo.ok 200 "OK") 1%nat eq_refl eq_refl).
Defined.

(** X5.  When the listing is fetched, the task repeats nothing: no event
    of the run occurs twice, so no call is made twice for a reference.
    The only pages it fetches are the links of the references, each for
    the reference at that position, and the summarizer is only ever asked
    for 3 sentences. *)
Theorem no_call_is_repeated {W : Type} (env : Env W)
    (topic : string) (σ : St W) (response : Response) (w : W) :
  requests_get env (Worker.search_url topic) (world σ) = (inr response, w) ->
  raise_for_status response = inr tt ->
  exists new,
    log (Worker.scrape_and_summarize env topic σ).2 = log σ ++ new
    /\ NoDup new
    /\ (forall k l,
          EvCall k (CFromUrl l) ∈ new ->
          ref_link <$> Listing.list_papers (BeautifulSoup env (text response)) !! k
          = Some l)
    /\ (forall k n, EvCall k (CSummarizer n) ∈ new -> n = 3%nat).
Proof.
  intros Hget Hstatus.
  destruct (task_trace_listed env topic σ response w Hget Hstatus)
    as (results & new & Hrun & Hnodup & _ & _ & _ & Hcalls).
  exists new. split; [by rewrite Hrun|]. split; [done|]. split.
  - intros k l Hin. destruct (Hcalls k _ Hin) as (p & -> & Hscript).
    unfold Trace.script in Hscript. set_unfold in Hscript.
    destruct Hscript as [H|[H|[H|[H|[H|[H|[]]]]]]]; try discriminate H.
    by injection H as ->.
  - intros k n Hin. destruct (Hcalls k _ Hin) as (p & _ & Hscript).
    unfold Trace.script in Hscript. set_unfold in Hscript.
    destruct Hscript as [H|[H|[H|[H|[H|[H|[]]]]]]]; try discriminate H.
    by injection H as ->.
Qed.

Lemma no_call_is_repeated_witness :
  exists new,
    log (Worker.scrape_and_summarize Demo.found "graph theory" Demo.start).2
    = log Demo.start ++ new
    /\ NoDup new
    /\ (forall k l,
          EvCall k (CFromUrl l) ∈ new ->
          ref_link <$> Listing.list_papers Sample.page !! k = Some l)
    /\ (forall k n, EvCall k (CSummarizer n) ∈ new -> n = 3%nat).
Proof.
  exact (no_call_is_repeated Demo.found "graph theory" Demo.start
           (Demo.ok 200 "OK") 1%nat eq_refl eq_refl).
Defined.

(** The ways a run can go, by how the listing request ends. *)
Lemma run_cases {W : Type} (env : Env W) (topic : string) (σ : St W) :
  (exists e w,
     requests_get env (Worker.search_url topic) (world σ) = (inl e, w)
     /\ is_request_exception e = false)
  \/ (exists r w e,
        requests_get env (Worker.search_url topic) (world σ) = (r, w)
        /\ Run.listing_failure r = Some e)
  \/ (exists response w,
        requests_get env (Worker.search_url topic) (world σ) = (inr response, w)
        /\ raise_for_status response = inr tt).
Proof.
  destruct (requests_get env (Worker.search_url topic) (world σ))
    as [[e|response] w] eqn:Hget.
  - destruct (is_request_exception e) eqn:Hclass.
    + right. left. exists (inl e), w, e. simpl. by rewrite Hclass.
    + left. by exists e, w.
  - destruct (raise_for_status response) as [e|[]] eqn:Hstatus.
    + right. left. exists (inr response), w, e. simpl. by rewrite Hstatus.
    + right. right. by exists response, w.
Qed.

(** X6.  Every run makes exactly one listing request, for the search URL
    of the topic, whether it then fails, raises or completes: the listing
    fetch is never retried. *)
Theorem exactly_one_listing_request {W : Type} (env : Env W)
    (topic : string) (σ : St W) :
  exists new,
    log (Worker.scrape_and_summarize env topic σ).2 = log σ ++ new
    /\ omap Trace.get_of new = [Worker.search_url topic].
Proof.
  destruct (run_cases env topic σ)
    as [(e & w & Hget & Hclass)
       |[(r & w & e & Hget & Hfail)|(response & w & Hget & Hstatus)]].
  - rewrite (scrape_escaped env topic σ e w Hget Hclass). by eexists.
  - rewrite (scrape_failed env topic σ r w e Hget Hfail). by eexists.
  - destruct (task_trace_listed env topic σ response w Hget Hstatus)
      as (results & new & Hrun & _ & Hgets & _).
    exists new. by rewrite Hrun.
Qed.

(** X7.  What the two [try] blocks let through.  An exception raised by
    [requests.get] escapes the task exactly when it is not a
    [RequestException]; an HTTP error status never makes the task raise;
    and the loop over the references never raises, whatever its calls
    raise. *)
Theorem what_escapes_the_task {W : Type} (env : Env W)
    (topic : string) (σ : St W) :
  (forall e w,
     requests_get env (Worker.search_url topic) (world σ) = (inl e, w) ->
     ((Worker.scrape_and_summarize env topic σ).1 = inl e
      <-> is_request_exception e = false))
  /\ (forall response w e,
        requests_get env (Worker.search_url topic) (world σ) = (inr response, w) ->
        raise_for_status response = inl e ->
        exists s, (Worker.scrape_and_summarize env topic σ).1 = inr s)
  /\ (forall i papers summaries σ0,
        exists results,
          (Worker.summarize_all env i papers summaries σ0).1 = inr results).
Proof.
  split; [|split].
  - intros e w Hget. destruct (is_request_exception e) eqn:Hclass.
    + rewrite (scrape_failed env topic σ (inl e) w e Hget)
        by (simpl; by rewrite Hclass).
      simpl. split; intros H; discriminate H.
    + by rewrite (scrape_escaped env topic σ e w Hget Hclass).
  - intros response w e Hget Hstatus.
    rewrite (scrape_failed env topic σ (inr response) w e Hget)
      by (simpl; by rewrite Hstatus).
    by eexists.
  - intros i papers summaries σ0. rewrite summarize_all_run. by eexists.
Qed.

Lemma what_escapes_the_task_witness :
  (Worker.scrape_and_summarize Crash.env "graph theory" Demo.start).1
  = inl Crash.error
  /\ exists s,
       (Worker.scrape_and_summarize Demo.missing "graph theory" Demo.start).1
       = inr s.
Proof.
  split.
  - apply (proj1 (what_escapes_the_task Crash.env "graph theory" Demo.start)
             Crash.error 1%nat eq_refl).
    reflexivity.
  - exact (proj1 (proj2 (what_escapes_the_task Demo.missing "graph theory"
                           Demo.start))
             (Demo.ok 404 "Not Found") 1%nat _ eq_refl eq_refl).
Defined.

(** X8.  The task sets the state [FAILURE] exactly when the listing fetch
    failed with a [RequestException] (raised by [requests.get] or by
    [raise_for_status]); in every other run, also one in which an
    exception escapes, it never does. *)
Theorem failure_state_iff_listing_failure {W : Type} (env : Env W)
    (topic : string) (σ : St W) :
  exists new,
    log (Worker.scrape_and_summarize env topic σ).2 = log σ ++ new
    /\ (Exists (fun ev => Trace.state_of ev = Some "FAILURE") new
        <-> is_Some (Run.listing_failure
                       (requests_get env (Worker.search_url topic) (world σ)).1)).
Proof.
  destruct (run_cases env topic σ)
    as [(e & w & Hget & Hclass)
       |[(r & w & e & Hget & Hfail)|(response & w & Hget & Hstatus)]].
  - rewrite (scrape_escaped env topic σ e w Hget Hclass), Hget.
    eexists. split; [reflexivity|]. simpl. rewrite Hclass.
    rewrite !Exists_cons, Exists_nil. simpl. split.
    + intros [H|[H|[]]]; discriminate H.
    + by intros [? ?].
  - rewrite (scrape_failed env topic σ r w e Hget Hfail), Hget.
    eexists. split; [reflexivity|]. simpl. rewrite Hfail. split; [by eexists|].
    intros _. do 2 apply Exists_cons_tl. by apply Exists_cons_hd.
  - destruct (task_trace_listed env topic σ response w Hget Hstatus)
      as (results & new & Hrun & _ & _ & Hstates & _).
    exists new. rewrite Hrun, Hget. split; [done|]. simpl. rewrite Hstatus.
    split; [|by intros [? ?]].
    rewrite Exists_exists. intros (ev & Hev & Hs).
    rewrite Forall_forall in Hstates. by specialize (Hstates ev Hev _ Hs).
Qed.

(** X9.  A summary text is produced for a reference only when all six
    calls of the inner [try] succeeded one after the other, each in the
    world the one before left: the page fetched is the one at the link of
    that reference, the document is made from that page, the summarizer
    is asked for 3 sentences of that document, and the summary is their
    texts joined by single spaces. *)
Theorem summary_is_made_from_the_page_of_the_reference {W : Type}
    (env : Env W) (i : nat) (paper : PaperReference) (σ : St W)
    (summary_text : string) :
  (Worker.summarize_paper env i paper σ).1 = inr summary_text ->
  exists w1 page w2 w3 w4 doc w5 sentences w6,
    Tokenizer env "english" (world σ) = (inr tt, w1)
    /\ from_url env (ref_link paper) w1 = (inr page, w2)
    /\ Stemmer env "english" w2 = (inr tt, w3)
    /\ get_stop_words env "english" w3 = (inr tt, w4)
    /\ document env page w4 = (inr doc, w5)
    /\ summarizer env doc 3 w5 = (inr sentences, w6)
    /\ summary_text = Py.join " " (List.map sentence_text sentences)
    /\ world (Worker.summarize_paper env i paper σ).2 = w6.
Proof.
  unfold Worker.summarize_paper, bind, call, ret.
  destruct (Tokenizer env "english" (world σ)) as [[?|[]] w1] eqn:Htok;
    cbn [world log fst snd]; [done|].
  destruct (from_url env (ref_link paper) w1) as [[?|page] w2] eqn:Hpage;
    cbn [world log fst snd]; [done|].
  destruct (Stemmer env "english" w2) as [[?|[]] w3] eqn:Hstem;
    cbn [world log fst snd]; [done|].
  destruct (get_stop_words env "english" w3) as [[?|[]] w4] eqn:Hstop;
    cbn [world log fst snd]; [done|].
  destruct (document env page w4) as [[?|doc] w5] eqn:Hdoc;
    cbn [world log fst snd]; [done|].
  destruct (summarizer env doc 3 w5) as [[?|sentences] w6] eqn:Hsum;
    cbn [world log fst snd]; [done|].
  intros [= <-]. by exists w1, page, w2, w3, w4, doc, w5, sentences, w6.
Qed.

Lemma summary_is_made_from_the_page_of_the_reference_witness :
  exists w1 page w2 w3 w4 doc w5 sentences w6,
    Tokenizer Demo.found "english" 1%nat = (inr tt, w1)
    /\ from_url Demo.found "https://arxiv.org/abs/1" w1 = (inr page, w2)
    /\ Stemmer Demo.found "english" w2 = (inr tt, w3)
    /\ get_stop_words Demo.found "english" w3 = (inr tt, w4)
    /\ document Demo.found page w4 = (inr doc, w5)
    /\ summarizer Demo.found doc 3 w5 = (inr sentences, w6)
    /\ "graph theory studies graph colouring colouring a planar graph needs four colours planar graph colouring is hard"
       = Py.join " " (List.map sentence_text sentences)
    /\ world (Worker.summarize_paper Demo.found 0
                {| ref_title := "Graphs"; ref_link := "https://arxiv.org/abs/1" |}
                {| world := 1%nat; log := [] |}).2 = w6.
Proof.
  apply (summary_is_made_from_the_page_of_the_reference Demo.found 0
           {| ref_title := "Graphs"; ref_link := "https://arxiv.org/abs/1" |}
           {| world := 1%nat; log := [] |}).
  vm_compute. reflexivity.
Defined.

(* ===================================================================== *)
(** ** More on the routes *)
(* ===================================================================== *)

(** A run whose every state is [PROGRESS] has not set [FAILURE]. *)
Lemma no_failure_among_progress (events : list Event) :
  Forall (fun ev => forall s, Trace.state_of ev = Some s -> s = "PROGRESS")
    events ->
  Web.sets_failure events = false.
Proof.
  induction 1 as [|ev events Hev _ IH]; [done|].
  unfold Web.sets_failure in *. simpl. rewrite IH, orb_false_r.
  destruct ev as [state meta| | |]; try done.
  by rewrite (Hev state eq_refl).
Qed.

(** X10.  While a job whose listing was fetched runs, every state it sets
    is one the status route reads as [pending]: whatever the backend
    holds for that state, the answer is 202 with [{"status": "pending"}],
    and the progress message is not part of it. *)
Theorem progress_is_polled_as_pending {W : Type} (env : Env W)
    (topic : string) (σ : St W) (response : Response) (w : W) :
  requests_get env (Worker.search_url topic) (world σ) = (inr response, w) ->
  raise_for_status response = inr tt ->
  exists new,
    log (Worker.scrape_and_summarize env topic σ).2 = log σ ++ new
    /\ forall ev s,
         ev ∈ new -> Trace.state_of ev = Some s ->
         forall task_id backend result,
           Web.get_task_status task_id
             (<[task_id := {| Web.state := s; Web.result := result |}]> backend)
           = {| Web.body := JObject [("status", JString "pending")];
                Web.code := 202 |}.
Proof.
  intros Hget Hstatus.
  destruct (task_trace_listed env topic σ response w Hget Hstatus)
    as (results & new & Hrun & _ & _ & Hstates & _).
  exists new. split; [by rewrite Hrun|]. intros ev s Hev Hs task_id backend result.
  rewrite Forall_forall in Hstates. rewrite (Hstates ev Hev s Hs).
  unfold Web.get_task_status, Web.AsyncResult. by rewrite lookup_insert_eq.
Qed.

Lemma progress_is_polled_as_pending_witness :
  exists new,
    log (Worker.scrape_and_summarize Demo.found "graph theory" Demo.start).2
    = log Demo.start ++ new
    /\ forall ev s,
         ev ∈ new -> Trace.state_of ev = Some s ->
         forall task_id backend result,
           Web.get_task_status task_id
             (<[task_id := {| Web.state := s; Web.result := result |}]> backend)
           = {| Web.body := JObject [("status", JString "pending")];
                Web.code := 202 |}.
Proof.
  exact (progress_is_polled_as_pending Demo.found "graph theory" Demo.start
           (Demo.ok 200 "OK") 1%nat eq_refl eq_refl).
Defined.

(** X11.  Once a worker has run a task whose listing fetch failed, the
    failure answer the task returned does not reach the poller: the
    task's own [update_state] to [FAILURE] left an entry that cannot be
    read, and the status route answers 500. *)
Theorem listing_failure_is_polled_as_server_error {W : Type} (env : Env W)
    (task_id topic : string) (w0 : W) (backend : gmap string Web.TaskMeta)
    (r : exn + Response) (w : W) (e : exn) :
  requests_get env (Worker.search_url topic) w0 = (r, w) ->
  Run.listing_failure r = Some e ->
  Web.get_task_status task_id (Web.run_task env task_id topic w0 backend).1
  = {| Web.body := JNull; Web.code := 500 |}.
Proof.
  intros Hget Hfail. unfold Web.run_task.
  rewrite (scrape_failed env topic {| world := w0; log := [] |} r w e Hget Hfail).
  cbn [fst log]. unfold Web.get_task_status, Web.AsyncResult.
  by rewrite lookup_insert_eq.
Qed.

Lemma listing_failure_is_polled_as_server_error_witness :
  Web.get_task_status "task-0"
    (Web.run_task Demo.missing "task-0" "graph theory" 0%nat ∅).1
  = {| Web.body := JNull; Web.code := 500 |}.
Proof.
  exact (listing_failure_is_polled_as_server_error Demo.missing "task-0"
           "graph theory" 0%nat ∅ (inr (Demo.ok 404 "Not Found")) 1%nat
           {| is_request_exception := true;
              exn_str := "404 Client Error: Not Found for url: https://arxiv.org/search/?query=graph+theory&searchtype=all" |}
           eq_refl eq_refl).
Defined.

(** X12.  When [requests.get] raises something that is not a
    [RequestException], the exception escapes the task, Celery keeps it
    as the result, and the status route cannot encode it: every later
    poll of that task is answered 500. *)
Theorem escaped_exception_is_polled_as_server_error {W : Type} (env : Env W)
    (task_id topic : string) (w0 : W) (backend : gmap string Web.TaskMeta)
    (e : exn) (w : W) :
  requests_get env (Worker.search_url topic) w0 = (inl e, w) ->
  is_request_exception e = false ->
  Web.get_task_status task_id (Web.run_task env task_id topic w0 backend).1
  = {| Web.body := JNull; Web.code := 500 |}.
Proof.
  intros Hget Hclass. unfold Web.run_task.
  rewrite (scrape_escaped env topic {| world := w0; log := [] |} e w Hget Hclass).
  cbn [fst log]. unfold Web.get_task_status, Web.AsyncResult.
  by rewrite lookup_insert_eq.
Qed.

Lemma escaped_exception_is_polled_as_server_error_witness :
  Web.get_task_status "task-0"
    (Web.run_task Crash.env "task-0" "graph theory" 0%nat ∅).1
  = {| Web.body := JNull; Web.code := 500 |}.
Proof.
  exact (escaped_exception_is_polled_as_server_error Crash.env "task-0"
           "graph theory" 0%nat ∅ Crash.error 1%nat eq_refl eq_refl).
Defined.

(* ===================================================================== *)
(** ** The search URL *)
(* ===================================================================== *)

Lemma replace_length (a b : ascii) (s : string) :
  String.length (Py.replace a b s) = String.length s.
Proof. induction s as [|c s IH]; simpl; [done | by rewrite IH]. Qed.

Lemma replace_get (a b : ascii) (s : string) (i : nat) :
  String.get i (Py.replace a b s)
  = (fun c => if Ascii.eqb c a then b else c) <$> String.get i s.
Proof.
  revert i. induction s as [|c s IH]; intros [|i]; simpl; auto.
Qed.

(** X13.  The search URL is the fixed prefix, the topic with every space
    turned into [+], and the fixed suffix.  The query has the length of
    the topic and holds no space; every other character of the topic,
    [&], [#] and [%] included, stands in it unchanged. *)
Theorem search_url_replaces_spaces_only (topic : string) :
  exists query,
    Worker.search_url topic
    = "https://arxiv.org/search/?query=" +:+ query +:+ "&searchtype=all"
    /\ String.length query = String.length topic
    /\ (forall i, String.get i query <> Some " "%char)
    /\ (forall i c, String.get i topic = Some c -> c <> " "%char ->
                    String.get i query = Some c)
    /\ (forall i, String.get i topic = Some " "%char ->
                  String.get i query = Some "+"%char).
Proof.
  exists (Py.replace " " "+" topic). split; [reflexivity|].
  split; [apply replace_length|]. split; [|split].
  - intros i. rewrite replace_get.
    destruct (String.get i topic) as [c|]; simpl; [|done].
    destruct (Ascii.eqb_spec c " "); [done | congruence].
  - intros i c Hc Hne. rewrite replace_get, Hc. simpl.
    by destruct (Ascii.eqb_spec c " ").
  - intros i Hc. by rewrite replace_get, Hc.
Qed.

(** X15.  Once a worker has run a task whose listing was fetched, the
    status route answers 200 with the status [ready] and, as result, the
    [complete] answer, which holds one entry for every reference of the
    listing. *)
Theorem completed_job_is_polled_as_ready {W : Type} (env : Env W)
    (task_id topic : string) (w0 : W) (backend : gmap string Web.TaskMeta)
    (response : Response) (w : W) :
  requests_get env (Worker.search_url topic) w0 = (inr response, w) ->
  raise_for_status response = inr tt ->
  exists results,
    Web.get_task_status task_id (Web.run_task env task_id topic w0 backend).1
    = {| Web.body :=
           JObject [("status", JString "ready");
                    ("result",
                     JObject [("status", JString "complete");
                              ("papers", JArray (List.map Worker.paper_json results))])];
         Web.code := 200 |}
    /\ length results
       = length (Listing.list_papers (BeautifulSoup env (text response))).
Proof.
  intros Hget Hstatus.
  set (σ := {| world := w0; log := [] |}).
  destruct (task_trace_listed env topic σ response w Hget Hstatus)
    as (results & new & Hrun & _ & _ & Hstates & _).
  pose proof (scrape_answer env topic σ response w Hget Hstatus) as Hanswer.
  cbv zeta in Hanswer. rewrite Hrun in Hanswer. simpl in Hanswer.
  injection Hanswer as Hanswer.
  apply (f_equal length) in Hanswer. rewrite !length_map in Hanswer.
  exists results. split.
  - apply (poll_after_return env task_id topic w0 backend _ _ Hrun).
    cbn [log app]. by apply no_failure_among_progress.
  - rewrite Hanswer. apply length_zip_with_l_eq. by rewrite outcomes_length.
Qed.

Lemma completed_job_is_polled_as_ready_witness :
  exists results,
    Web.get_task_status "task-0"
      (Web.run_task Demo.found "task-0" "graph theory" 0%nat ∅).1
    = {| Web.body :=
           JObject [("status", JString "ready");
                    ("result",
                     JObject [("status", JString "complete");
                              ("papers", JArray (List.map Worker.paper_json results))])];
         Web.code := 200 |}
    /\ length results = length (Listing.list_papers Sample.page).
Proof.
  exact (completed_job_is_polled_as_ready Demo.found "task-0" "graph theory"
           0%nat ∅ (Demo.ok 200 "OK") 1%nat eq_refl eq_refl).
Defined.
